(** * kimchi / pump: a tagged binary codec for built-in Python values

    Shallow embedding of [getType] (pump/utils/types.c) and of the two
    dispatch functions [serialize] and [deserialize]
    (kimchi/utils/serialize.c), built for Python 2
    ([PY_MAJOR_VERSION == 2]: [getType] uses [PyInt_CheckExact] and
    [PyString_Check], which exist only there).

    The headers ([pump.h], [kimchi.h]) and the per-kind helpers called by the
    dispatch functions are not part of the sources at hand.  The tag constants
    are taken as a parameter (a [TagTable]); the helpers are modelled from the
    specification and marked as such. *)

From Stdlib Require Import ZArith List Bool Lia String.
Import ListNotations.
Local Open Scope Z_scope.
Set Warnings "-register-all".

(** ** Bytes and results *)

(** An [unsigned char] is a [Z] in [0, 256). *)
Abbreviation byte := Z (only parsing).
Abbreviation bytes := (list Z) (only parsing).

(** [unsigned long long], the type of [bodySize], [headerSize] and [size]. *)
Definition ULLONG_MAX : Z := 2 ^ 64 - 1.

Definition len {A} (l : list A) : Z := Z.of_nat (List.length l).

(** Python exceptions and decode failures.  The three [TypeError]s are the
    [PyErr_Format] calls of the sources; the other kinds are the error kinds
    of the specification raised by the modelled helpers. *)
Inductive PyErr : Type :=
| TypeError_UnknownObjectType (tp_name : string)
| TypeError_Unserializable (tp_name : string)
| TypeError_UnrecognizedTypeFlag (type : Z)
| BufferUnderrun
| TextDecodeError
| FuelExhausted.

Inductive res (A : Type) : Type :=
| Ok (a : A)
| Err (e : PyErr).
Arguments Ok {A} a.
Arguments Err {A} e.

Definition bind {A B} (r : res A) (k : A -> res B) : res B :=
  match r with
  | Ok a => k a
  | Err e => Err e
  end.

Notation "x <- r ;; k" := (bind r (fun x => k))
  (at level 61, r at next level, right associativity).
Notation "' p <- r ;; k" := (bind r (fun p => k))
  (at level 61, p pattern, r at next level, right associativity).

Definition is_ok {A} (r : res A) : bool :=
  match r with Ok _ => true | Err _ => false end.

(** ** Big-endian magnitudes *)

(** The [k] low-order bytes of [n], most significant first. *)
Fixpoint be_bytes (k : nat) (n : Z) : bytes :=
  match k with
  | O => []
  | S k' => be_bytes k' (n / 256) ++ [n mod 256]
  end.

Definition be_value (bs : bytes) : Z :=
  fold_left (fun acc b => acc * 256 + b) bs 0.

(** Number of bytes of the minimal big-endian form of [n] (0 for 0). *)
Definition byte_len (n : Z) : nat :=
  if n <=? 0 then O else Z.to_nat (Z.log2 n / 8 + 1).

(** ** VarSize *)

(** Modelled from the spec: the size field written by [constructHeaders] and
    read by [parseHeaders] (both absent from the sources), section 4.1:
    [n <= 127] is the single byte [0x80 | n]; a larger [n] is one byte holding
    the count [k] of magnitude bytes (high bit clear) followed by the [k]
    bytes of [n] in minimal big-endian form. *)
Definition encodeSize (n : Z) : bytes :=
  if n <=? 127 then [Z.lor 128 n]
  else Z.of_nat (byte_len n) :: be_bytes (byte_len n) n.

(** ** The buffer cursor *)

(** Modelled from the spec: [UserBuffer] (declared in the absent header), a
    read-only view with an explicit position: [consumed] bytes are behind the
    cursor, [remaining] are ahead of it. *)
Record UserBuffer : Type := mkBuffer {
  consumed : Z;
  remaining : bytes
}.

Definition newBuffer (bs : bytes) : UserBuffer := mkBuffer 0 bs.

(** Modelled from the spec: taking [n] bytes at the cursor; fewer than [n]
    bytes ahead is a buffer underrun. *)
Definition readBuffer (n : Z) (buf : UserBuffer) : res (bytes * UserBuffer) :=
  if len (remaining buf) <? n then Err BufferUnderrun
  else Ok (firstn (Z.to_nat n) (remaining buf),
           mkBuffer (consumed buf + n) (skipn (Z.to_nat n) (remaining buf))).

Definition readByte (buf : UserBuffer) : res (byte * UserBuffer) :=
  match remaining buf with
  | [] => Err BufferUnderrun
  | b :: rest => Ok (b, mkBuffer (consumed buf + 1) rest)
  end.

(** Modelled from the spec: decoding of a VarSize at the cursor, section 4.1:
    high bit set, the value is the low 7 bits; high bit clear, the low 7 bits
    give the count of big-endian bytes that follow. *)
Definition decodeSize (buf : UserBuffer) : res (Z * UserBuffer) :=
  '(b, buf1) <- readByte buf ;;
  if Z.testbit b 7 then Ok (Z.land b 127, buf1)
  else
    '(bs, buf2) <- readBuffer (Z.land b 127) buf1 ;;
    Ok (be_value bs, buf2).

(** ** Tags *)

(** The names of the type tags.  [STRING_TYPE] is the name [getType] (pump)
    gives to the tag that [serialize] (kimchi) calls [BYTES_TYPE]. *)
Inductive Tag : Type :=
| INT_TYPE | NEG_INT_TYPE | LONG_TYPE | NEG_LONG_TYPE | FLOAT_TYPE
| BYTES_TYPE | UNICODE_TYPE | LIST_TYPE | TUPLE_TYPE | DICT_TYPE
| SET_TYPE | FROZEN_SET_TYPE | BOOL_TRUE_TYPE | BOOL_FALSE_TYPE | NONE_TYPE
| STRING_TYPE.

(** The values the header gives to the names: the header is absent, so the
    table is a parameter of everything below. *)
Definition TagTable : Type := Tag -> Z.

(** The case labels of the two [switch] statements of serialize.c. *)
Definition case_labels : list Tag :=
  [INT_TYPE; NEG_INT_TYPE; LONG_TYPE; NEG_LONG_TYPE; FLOAT_TYPE;
   BYTES_TYPE; UNICODE_TYPE; LIST_TYPE; TUPLE_TYPE; DICT_TYPE;
   SET_TYPE; FROZEN_SET_TYPE; BOOL_TRUE_TYPE; BOOL_FALSE_TYPE; NONE_TYPE].

Fixpoint distinctb (l : list Z) : bool :=
  match l with
  | [] => true
  | x :: t => negb (existsb (Z.eqb x) t) && distinctb t
  end.

(** What C and the sources require of the table: the labels of one [switch]
    are pairwise distinct, a tag is a positive [unsigned char] ([getType]
    keeps 0 for "unknown"), and the byte-string tag has one value under its
    two names. *)
Definition tags_wf (T : TagTable) : bool :=
  forallb (fun t => (1 <=? T t) && (T t <=? 255)) case_labels
  && distinctb (map T case_labels)
  && (T STRING_TYPE =? T BYTES_TYPE).

(** [switch (type)]: the label whose constant equals [type], if any. *)
Definition switch_label (T : TagTable) (type : Z) : option Tag :=
  find (fun t => T t =? type) case_labels.

(** Modelled from the spec: a table for concrete runs.  The README's examples
    fix [INT_TYPE = 1], the byte-string tag [= 5], [LIST_TYPE = 8] and
    [TUPLE_TYPE = 9]; the other values are only required to be distinct. *)
Definition kimchi_tags : TagTable := fun t =>
  match t with
  | INT_TYPE => 1 | NEG_INT_TYPE => 2 | LONG_TYPE => 3 | NEG_LONG_TYPE => 4
  | BYTES_TYPE | STRING_TYPE => 5 | UNICODE_TYPE => 6 | FLOAT_TYPE => 7
  | LIST_TYPE => 8 | TUPLE_TYPE => 9 | DICT_TYPE => 10
  | SET_TYPE => 11 | FROZEN_SET_TYPE => 12
  | BOOL_TRUE_TYPE => 13 | BOOL_FALSE_TYPE => 14 | NONE_TYPE => 15
  end.

(** ** Python objects *)

(** Whether an object's type is the built-in type itself or a strict subclass
    of it (with the subclass's [tp_name]). *)
Inductive Cls : Type :=
| Exact
| Subclass (tp_name : string).

(** A host value, by the layout of its object.  In Python 2 [bool] is a
    subclass of [int] with the layout of [int], so [Py_True] and [Py_False]
    are [PyInt] objects whose type is that subclass.  A float holds the eight
    bytes of its double, a unicode object its encoded bytes (the Text of the
    specification's data model); a dict, a set and a frozenset hold their
    entries in iteration order. *)
Inductive PyObject : Type :=
| PyInt (c : Cls) (ob_ival : Z)
| PyLong (c : Cls) (value : Z)
| PyFloat (c : Cls) (ob_fval : bytes)
| PyString (c : Cls) (ob_sval : bytes)
| PyUnicode (c : Cls) (encoded : bytes)
| PyList (c : Cls) (ob_item : list PyObject)
| PyTuple (c : Cls) (ob_item : list PyObject)
| PyDict (c : Cls) (entries : list (PyObject * PyObject))
| PySet (c : Cls) (elems : list PyObject)
| PyFrozenSet (c : Cls) (elems : list PyObject)
| Py_None
| PyInstance (tp_name : string).

Definition Py_True : PyObject := PyInt (Subclass "bool") 1.
Definition Py_False : PyObject := PyInt (Subclass "bool") 0.

Definition cls_name (builtin : string) (c : Cls) : string :=
  match c with
  | Exact => builtin
  | Subclass n => n
  end.

(** [Py_TYPE(obj)->tp_name] *)
Definition tp_name (obj : PyObject) : string :=
  match obj with
  | PyInt c _ => cls_name "int" c
  | PyLong c _ => cls_name "long" c
  | PyFloat c _ => cls_name "float" c
  | PyString c _ => cls_name "str" c
  | PyUnicode c _ => cls_name "unicode" c
  | PyList c _ => cls_name "list" c
  | PyTuple c _ => cls_name "tuple" c
  | PyDict c _ => cls_name "dict" c
  | PySet c _ => cls_name "set" c
  | PyFrozenSet c _ => cls_name "frozenset" c
  | Py_None => "NoneType"
  | PyInstance n => n
  end.

(** The type checks of the C API: [..._CheckExact] compares the type pointer,
    [PyString_Check] and [PyUnicode_Check] accept subclasses. *)
Definition PyInt_CheckExact (obj : PyObject) : bool :=
  match obj with PyInt Exact _ => true | _ => false end.
Definition PyLong_CheckExact (obj : PyObject) : bool :=
  match obj with PyLong Exact _ => true | _ => false end.
Definition PyFloat_CheckExact (obj : PyObject) : bool :=
  match obj with PyFloat Exact _ => true | _ => false end.
Definition PyString_Check (obj : PyObject) : bool :=
  match obj with PyString _ _ => true | _ => false end.
Definition PyUnicode_Check (obj : PyObject) : bool :=
  match obj with PyUnicode _ _ => true | _ => false end.
Definition PyList_CheckExact (obj : PyObject) : bool :=
  match obj with PyList Exact _ => true | _ => false end.
Definition PyTuple_CheckExact (obj : PyObject) : bool :=
  match obj with PyTuple Exact _ => true | _ => false end.
Definition PyDict_CheckExact (obj : PyObject) : bool :=
  match obj with PyDict Exact _ => true | _ => false end.
Definition PyFrozenSet_CheckExact (obj : PyObject) : bool :=
  match obj with PyFrozenSet Exact _ => true | _ => false end.
Definition PyAnySet_CheckExact (obj : PyObject) : bool :=
  match obj with PySet Exact _ | PyFrozenSet Exact _ => true | _ => false end.
Definition is_Py_None (obj : PyObject) : bool :=
  match obj with Py_None => true | _ => false end.

(** [PyLong_AsLongLong] on an int object is its machine value. *)
Definition PyLong_AsLongLong (obj : PyObject) : Z :=
  match obj with
  | PyInt _ v => v
  | PyLong _ v => v
  | _ => -1
  end.

(** [ob_size] of a long object: the number of [PyLong_SHIFT]-bit digits of
    the magnitude, negated for a negative value, 0 for zero. *)
Definition PyLong_SHIFT : Z := 30.

Definition ob_size (obj : PyObject) : Z :=
  match obj with
  | PyLong _ v =>
      Z.sgn v * (if Z.abs v =? 0 then 0 else Z.log2 (Z.abs v) / PyLong_SHIFT + 1)
  | _ => 0
  end.

(** ** getType (pump/utils/types.c) *)

(** The tag of a host value, 0 when its type is not recognised (the
    [TypeError] raised then is recorded by the caller, see [serialize]). *)
Definition getType (T : TagTable) (obj : PyObject) : Z :=
  if PyInt_CheckExact obj then
    if PyLong_AsLongLong obj <? 0 then T NEG_INT_TYPE else T INT_TYPE
  else if PyLong_CheckExact obj then
    if ob_size obj <? 0 then T NEG_LONG_TYPE else T LONG_TYPE
  else if PyFloat_CheckExact obj then T FLOAT_TYPE
  else if PyString_Check obj then T STRING_TYPE
  else if PyUnicode_Check obj then T UNICODE_TYPE
  else if PyList_CheckExact obj then T LIST_TYPE
  else if PyTuple_CheckExact obj then T TUPLE_TYPE
  else if PyDict_CheckExact obj then T DICT_TYPE
  else if is_Py_None obj then T NONE_TYPE
  else if PyAnySet_CheckExact obj then
    if PyFrozenSet_CheckExact obj then T FROZEN_SET_TYPE else T SET_TYPE
  else 0.

(** ** The encoders *)

(** Modelled from the spec: the body of an integer, section 4.3: the
    minimal-length big-endian bytes of the absolute value, zero being one
    zero byte; the sign is carried by the tag. *)
Definition magnitude (n : Z) : bytes :=
  if n =? 0 then [0] else be_bytes (byte_len n) n.

(** Modelled from the spec: [constructHeaders] (absent), sections 4.2 and 6:
    the tag byte followed by the VarSize of the body length. *)
Definition constructHeaders (bodySize : Z) (type : Z) : bytes :=
  type :: encodeSize bodySize.

Section Encoders.

(** The recursive call back into the envelope layer. *)
Variable ser : PyObject -> res bytes.

(** Modelled from the spec: the concatenation of the envelopes of the
    elements, in source order (section 4.4). *)
Fixpoint serializeItems (items : list PyObject) : res bytes :=
  match items with
  | [] => Ok []
  | x :: rest =>
      bs <- ser x ;;
      more <- serializeItems rest ;;
      Ok (bs ++ more)
  end.

(** Modelled from the spec: key envelope then value envelope for each
    pair, in source iteration order (section 4.4). *)
Fixpoint serializePairs (items : list (PyObject * PyObject)) : res bytes :=
  match items with
  | [] => Ok []
  | (k, v) :: rest =>
      kb <- ser k ;;
      vb <- ser v ;;
      more <- serializePairs rest ;;
      Ok (kb ++ vb ++ more)
  end.

(** Modelled from the spec: the per-kind helpers called by [serialize]
    (absent), sections 4.3 and 4.4.  Each is given the object its caller
    passes; an object of another layout than the helper's is rejected. *)
Definition serializeInt (object : PyObject) (type : Z) : res bytes :=
  match object with
  | PyInt _ v => Ok (magnitude (Z.abs v))
  | _ => Err (TypeError_Unserializable (tp_name object))
  end.

Definition serializeLong (object : PyObject) (type : Z) : res bytes :=
  match object with
  | PyLong _ v => Ok (magnitude (Z.abs v))
  | _ => Err (TypeError_Unserializable (tp_name object))
  end.

Definition serializeFloat (object : PyObject) : res bytes :=
  match object with
  | PyFloat _ d => Ok d
  | _ => Err (TypeError_Unserializable (tp_name object))
  end.

Definition serializeBytes (object : PyObject) : res bytes :=
  match object with
  | PyString _ s => Ok s
  | _ => Err (TypeError_Unserializable (tp_name object))
  end.

Definition serializeUnicode (object : PyObject) : res bytes :=
  match object with
  | PyUnicode _ s => Ok s
  | _ => Err (TypeError_Unserializable (tp_name object))
  end.

Definition serializeList (object : PyObject) : res bytes :=
  match object with
  | PyList _ items =>
      more <- serializeItems items ;;
      Ok (encodeSize (len items) ++ more)
  | _ => Err (TypeError_Unserializable (tp_name object))
  end.

Definition serializeTuple (object : PyObject) : res bytes :=
  match object with
  | PyTuple _ items =>
      more <- serializeItems items ;;
      Ok (encodeSize (len items) ++ more)
  | _ => Err (TypeError_Unserializable (tp_name object))
  end.

Definition serializeDict (object : PyObject) : res bytes :=
  match object with
  | PyDict _ items =>
      more <- serializePairs items ;;
      Ok (encodeSize (len items) ++ more)
  | _ => Err (TypeError_Unserializable (tp_name object))
  end.

Definition serializeSet (object : PyObject) : res bytes :=
  match object with
  | PySet _ items | PyFrozenSet _ items =>
      more <- serializeItems items ;;
      Ok (encodeSize (len items) ++ more)
  | _ => Err (TypeError_Unserializable (tp_name object))
  end.

Definition serializeBool : res bytes := Ok [].

Definition serializeNone : res bytes := Ok [].

End Encoders.

(** ** serialize (kimchi/utils/serialize.c) *)

(** [Ok bs] is "return 0" with the envelope [bs] handed to the caller,
    [Err e] is "return 1" with the exception [e] set; see [serialize_out]
    for the out-parameters. *)
Fixpoint serialize (T : TagTable) (object : PyObject) : res bytes :=
  let type := getType T object in
  if type =? 0 then Err (TypeError_UnknownObjectType (tp_name object))
  else
    body <-
      match switch_label T type with
      | Some INT_TYPE | Some NEG_INT_TYPE => serializeInt object type
      | Some LONG_TYPE | Some NEG_LONG_TYPE => serializeLong object type
      | Some FLOAT_TYPE => serializeFloat object
      | Some BYTES_TYPE => serializeBytes object
      | Some UNICODE_TYPE => serializeUnicode object
      | Some LIST_TYPE => serializeList (serialize T) object
      | Some TUPLE_TYPE => serializeTuple (serialize T) object
      | Some DICT_TYPE => serializeDict (serialize T) object
      | Some SET_TYPE | Some FROZEN_SET_TYPE => serializeSet (serialize T) object
      | Some BOOL_TRUE_TYPE | Some BOOL_FALSE_TYPE => serializeBool
      | Some NONE_TYPE => serializeNone
      | Some STRING_TYPE | None =>
          Err (TypeError_Unserializable (tp_name object))
      end ;;
    let bodySize := len body in
    let headers := constructHeaders bodySize type in
    Ok (headers ++ body).

(** The caller's [*out] and [*outSize]. *)
Record OutArgs : Type := mkOut {
  out : option bytes;
  outSize : Z
}.

(** The call as C sees it: the return code, the out-parameters after the
    call and the exception set.  Every [return 1] of [serialize] comes
    before its first store to [*outSize] or [*out]; on success [*out] is a
    block of [headerSize + bodySize + 1] bytes, zeroed and then filled with
    the headers and the body. *)
Definition serialize_out (T : TagTable) (object : PyObject) (a : OutArgs)
  : Z * OutArgs * option PyErr :=
  match serialize T object with
  | Ok bs => (0, mkOut (Some (bs ++ [0])) (len bs), None)
  | Err e => (1, a, Some e)
  end.

(** ** Equality of objects *)

Section ListEqb.
Context {A : Type}.
Variable eqb : A -> A -> bool.

Fixpoint list_eqb (xs ys : list A) : bool :=
  match xs, ys with
  | [], [] => true
  | x :: xs', y :: ys' => eqb x y && list_eqb xs' ys'
  | _, _ => false
  end.
End ListEqb.

Definition Cls_eqb (c c' : Cls) : bool :=
  match c, c' with
  | Exact, Exact => true
  | Subclass n, Subclass n' => String.eqb n n'
  | _, _ => false
  end.

(** Structural equality, the test by which the decoders find an element or
    a key already present. *)
Fixpoint PyObject_eqb (a b : PyObject) : bool :=
  match a, b with
  | PyInt c v, PyInt c' v' => Cls_eqb c c' && (v =? v')
  | PyLong c v, PyLong c' v' => Cls_eqb c c' && (v =? v')
  | PyFloat c d, PyFloat c' d' => Cls_eqb c c' && list_eqb Z.eqb d d'
  | PyString c s, PyString c' s' => Cls_eqb c c' && list_eqb Z.eqb s s'
  | PyUnicode c s, PyUnicode c' s' => Cls_eqb c c' && list_eqb Z.eqb s s'
  | PyList c xs, PyList c' ys => Cls_eqb c c' && list_eqb PyObject_eqb xs ys
  | PyTuple c xs, PyTuple c' ys => Cls_eqb c c' && list_eqb PyObject_eqb xs ys
  | PyDict c xs, PyDict c' ys =>
      Cls_eqb c c'
      && (fix go (xs ys : list (PyObject * PyObject)) : bool :=
            match xs, ys with
            | [], [] => true
            | (k, v) :: xs', (k', v') :: ys' =>
                PyObject_eqb k k' && PyObject_eqb v v' && go xs' ys'
            | _, _ => false
            end) xs ys
  | PySet c xs, PySet c' ys => Cls_eqb c c' && list_eqb PyObject_eqb xs ys
  | PyFrozenSet c xs, PyFrozenSet c' ys =>
      Cls_eqb c c' && list_eqb PyObject_eqb xs ys
  | Py_None, Py_None => true
  | PyInstance n, PyInstance n' => String.eqb n n'
  | _, _ => false
  end.

(** Modelled from the spec: adding to a unique-membership collection, a
    duplicate being dropped silently (section 4.4). *)
Definition PySet_Add (s : list PyObject) (x : PyObject) : list PyObject :=
  if existsb (PyObject_eqb x) s then s else s ++ [x].

(** Modelled from the spec: inserting into a mapping, a repeated key
    overwriting the value of the earlier entry (section 4.4). *)
Definition PyDict_SetItem (d : list (PyObject * PyObject)) (k v : PyObject)
  : list (PyObject * PyObject) :=
  if existsb (fun e => PyObject_eqb k (fst e)) d
  then map (fun e => if PyObject_eqb k (fst e) then (fst e, v) else e) d
  else d ++ [(k, v)].

(** ** The decoders *)

(** Modelled from the spec: [parseHeaders] (absent), sections 4.1 and 4.2:
    one tag byte, the VarSize length [L] of the body, and a buffer underrun
    when fewer than [L] bytes remain. *)
Definition parseHeaders (buf : UserBuffer) : res (Z * Z * UserBuffer) :=
  '(type, buf1) <- readByte buf ;;
  '(size, buf2) <- decodeSize buf1 ;;
  if len (remaining buf2) <? size then Err BufferUnderrun
  else Ok (type, size, buf2).

Section Decoders.

Variable T : TagTable.

(** The validity check of the codec's fixed text encoding, which the
    specification leaves open. *)
Variable text_valid : bytes -> bool.

(** The recursive call back into the envelope layer. *)
Variable dec : UserBuffer -> res (PyObject * UserBuffer).

(** Modelled from the spec: [n] envelopes decoded in order (section 4.4).
    [fuel] bounds the iterations by the bytes left: every envelope takes at
    least its tag byte. *)
Fixpoint deserializeItems (fuel : nat) (n : Z) (buf : UserBuffer)
  : res (list PyObject * UserBuffer) :=
  if n <=? 0 then Ok ([], buf)
  else
    match fuel with
    | O => Err FuelExhausted
    | S fuel' =>
        '(x, buf1) <- dec buf ;;
        '(xs, buf2) <- deserializeItems fuel' (n - 1) buf1 ;;
        Ok (x :: xs, buf2)
    end.

(** Modelled from the spec: [n] times a key envelope then a value
    envelope (section 4.4). *)
Fixpoint deserializePairs (fuel : nat) (n : Z) (buf : UserBuffer)
  : res (list (PyObject * PyObject) * UserBuffer) :=
  if n <=? 0 then Ok ([], buf)
  else
    match fuel with
    | O => Err FuelExhausted
    | S fuel' =>
        '(k, buf1) <- dec buf ;;
        '(v, buf2) <- dec buf1 ;;
        '(xs, buf3) <- deserializePairs fuel' (n - 1) buf2 ;;
        Ok ((k, v) :: xs, buf3)
    end.

(** Modelled from the spec: the per-kind helpers called by [deserialize]
    (absent), sections 4.3 and 4.4, with the arguments their caller
    passes. *)
Definition deserializeInt (buf : UserBuffer) (type size : Z)
  : res (PyObject * UserBuffer) :=
  '(bs, buf1) <- readBuffer size buf ;;
  Ok (PyInt Exact (if type =? T NEG_INT_TYPE then - be_value bs else be_value bs),
      buf1).

Definition deserializeLong (buf : UserBuffer) (type size : Z)
  : res (PyObject * UserBuffer) :=
  '(bs, buf1) <- readBuffer size buf ;;
  Ok (PyLong Exact (if type =? T NEG_LONG_TYPE then - be_value bs else be_value bs),
      buf1).

Definition deserializeFloat (buf : UserBuffer) : res (PyObject * UserBuffer) :=
  '(bs, buf1) <- readBuffer 8 buf ;;
  Ok (PyFloat Exact bs, buf1).

Definition deserializeUnicode (buf : UserBuffer) (size : Z)
  : res (PyObject * UserBuffer) :=
  '(bs, buf1) <- readBuffer size buf ;;
  if text_valid bs then Ok (PyUnicode Exact bs, buf1) else Err TextDecodeError.

Definition deserializeBytes (buf : UserBuffer) (size : Z)
  : res (PyObject * UserBuffer) :=
  '(bs, buf1) <- readBuffer size buf ;;
  Ok (PyString Exact bs, buf1).

Definition deserializeList (fuel : nat) (buf : UserBuffer)
  : res (PyObject * UserBuffer) :=
  '(n, buf1) <- decodeSize buf ;;
  '(xs, buf2) <- deserializeItems fuel n buf1 ;;
  Ok (PyList Exact xs, buf2).

Definition deserializeTuple (fuel : nat) (buf : UserBuffer)
  : res (PyObject * UserBuffer) :=
  '(n, buf1) <- decodeSize buf ;;
  '(xs, buf2) <- deserializeItems fuel n buf1 ;;
  Ok (PyTuple Exact xs, buf2).

Definition deserializeDict (fuel : nat) (buf : UserBuffer)
  : res (PyObject * UserBuffer) :=
  '(n, buf1) <- decodeSize buf ;;
  '(xs, buf2) <- deserializePairs fuel n buf1 ;;
  Ok (PyDict Exact
        (fold_left (fun d e => PyDict_SetItem d (fst e) (snd e)) xs []),
      buf2).

Definition deserializeSet (fuel : nat) (buf : UserBuffer) (type : Z)
  : res (PyObject * UserBuffer) :=
  '(n, buf1) <- decodeSize buf ;;
  '(xs, buf2) <- deserializeItems fuel n buf1 ;;
  let elems := fold_left PySet_Add xs [] in
  Ok (if type =? T FROZEN_SET_TYPE then PyFrozenSet Exact elems
      else PySet Exact elems,
      buf2).

Definition deserializeBool (type : Z) : PyObject :=
  if type =? T BOOL_TRUE_TYPE then Py_True else Py_False.

Definition deserializeNone : PyObject := Py_None.

End Decoders.

(** ** deserialize (kimchi/utils/serialize.c) *)

(** The cursor is threaded through: the result is the object and the buffer
    after it.  [fuel] is there to make the recursion structural; it is not
    a limit of the code: [deserialize] gives an amount that always
    suffices. *)
Fixpoint deserialize_fuel (T : TagTable) (text_valid : bytes -> bool)
    (fuel : nat) (buf : UserBuffer) : res (PyObject * UserBuffer) :=
  match fuel with
  | O => Err FuelExhausted
  | S fuel' =>
      let dec := deserialize_fuel T text_valid fuel' in
      '(type, size, buf) <- parseHeaders buf ;;
      match switch_label T type with
      | Some INT_TYPE | Some NEG_INT_TYPE => deserializeInt T buf type size
      | Some LONG_TYPE | Some NEG_LONG_TYPE => deserializeLong T buf type size
      | Some FLOAT_TYPE => deserializeFloat buf
      | Some UNICODE_TYPE => deserializeUnicode text_valid buf size
      | Some BYTES_TYPE => deserializeBytes buf size
      | Some LIST_TYPE => deserializeList dec fuel' buf
      | Some TUPLE_TYPE => deserializeTuple dec fuel' buf
      | Some DICT_TYPE => deserializeDict dec fuel' buf
      | Some SET_TYPE | Some FROZEN_SET_TYPE => deserializeSet T dec fuel' buf type
      | Some BOOL_TRUE_TYPE | Some BOOL_FALSE_TYPE =>
          Ok (deserializeBool T type, buf)
      | Some NONE_TYPE => Ok (deserializeNone, buf)
      | Some STRING_TYPE | None => Err (TypeError_UnrecognizedTypeFlag type)
      end
  end.

(** Every call consumes at least the tag byte of its envelope, so the
    nesting of calls is below the number of bytes ahead of the cursor: the
    fuel given here is never exhausted ([deserialize_total]). *)
Definition deserialize (T : TagTable) (text_valid : bytes -> bool)
    (buf : UserBuffer) : res (PyObject * UserBuffer) :=
  deserialize_fuel T text_valid (S (List.length (remaining buf))) buf.

(** ** Supported values and the codec's equality *)

(** The host values to which [getType] gives a tag, in every component. *)
Fixpoint supported (v : PyObject) : bool :=
  match v with
  | PyInt Exact _ | PyLong Exact _ | PyFloat Exact _ => true
  | PyString _ _ | PyUnicode _ _ => true
  | PyList Exact xs | PyTuple Exact xs
  | PySet Exact xs | PyFrozenSet Exact xs => forallb supported xs
  | PyDict Exact es => forallb (fun e => supported (fst e) && supported (snd e)) es
  | Py_None => true
  | _ => false
  end.

(** The value of the data model a host value stands for: an instance of a
    subclass of [str] or [unicode] stands for the string it holds. *)
Fixpoint norm (v : PyObject) : PyObject :=
  match v with
  | PyString _ s => PyString Exact s
  | PyUnicode _ s => PyUnicode Exact s
  | PyList c xs => PyList c (map norm xs)
  | PyTuple c xs => PyTuple c (map norm xs)
  | PyDict c es => PyDict c (map (fun e => (norm (fst e), norm (snd e))) es)
  | PySet c xs => PySet c (map norm xs)
  | PyFrozenSet c xs => PyFrozenSet c (map norm xs)
  | _ => v
  end.

Fixpoint distinct_objects (l : list PyObject) : bool :=
  match l with
  | [] => true
  | x :: t => negb (existsb (PyObject_eqb x) t) && distinct_objects t
  end.

(** The invariants of the host objects: a double has eight bytes, the bytes
    of a unicode object are valid text, the elements of a set and the keys of
    a dict are pairwise different. *)
Fixpoint well_formed (text_valid : bytes -> bool) (v : PyObject) : bool :=
  match v with
  | PyFloat _ d => (List.length d =? 8)%nat
  | PyUnicode _ s => text_valid s
  | PyList _ xs | PyTuple _ xs => forallb (well_formed text_valid) xs
  | PySet _ xs | PyFrozenSet _ xs =>
      forallb (well_formed text_valid) xs && distinct_objects (map norm xs)
  | PyDict _ es =>
      forallb (fun e => well_formed text_valid (fst e)
                        && well_formed text_valid (snd e)) es
      && distinct_objects (map (fun e => norm (fst e)) es)
  | _ => true
  end.

(** The envelope of [v] has a length that [unsigned long long] holds (and so
    has every body and count inside it). *)
Definition fits (T : TagTable) (v : PyObject) : bool :=
  match serialize T v with
  | Ok bs => len bs <=? ULLONG_MAX
  | Err _ => true
  end.

(** The codec's equality: structural on scalars, lists, tuples and the
    entries of mappings, mutual membership on sets and frozensets; the class
    of a string is not part of its value. *)
Inductive codec_eq : PyObject -> PyObject -> Prop :=
| ceq_int c v : codec_eq (PyInt c v) (PyInt c v)
| ceq_long c v : codec_eq (PyLong c v) (PyLong c v)
| ceq_float c d : codec_eq (PyFloat c d) (PyFloat c d)
| ceq_string c c' s : codec_eq (PyString c s) (PyString c' s)
| ceq_unicode c c' s : codec_eq (PyUnicode c s) (PyUnicode c' s)
| ceq_list c xs ys :
    Forall2 codec_eq xs ys -> codec_eq (PyList c xs) (PyList c ys)
| ceq_tuple c xs ys :
    Forall2 codec_eq xs ys -> codec_eq (PyTuple c xs) (PyTuple c ys)
| ceq_dict c xs ys :
    Forall2 (fun e e' => codec_eq (fst e) (fst e') /\ codec_eq (snd e) (snd e'))
            xs ys ->
    codec_eq (PyDict c xs) (PyDict c ys)
| ceq_set c xs ys :
    (forall x, In x xs -> exists y, In y ys /\ codec_eq x y) ->
    (forall y, In y ys -> exists x, In x xs /\ codec_eq x y) ->
    codec_eq (PySet c xs) (PySet c ys)
| ceq_frozenset c xs ys :
    (forall x, In x xs -> exists y, In y ys /\ codec_eq x y) ->
    (forall y, In y ys -> exists x, In x xs /\ codec_eq x y) ->
    codec_eq (PyFrozenSet c xs) (PyFrozenSet c ys)
| ceq_none : codec_eq Py_None Py_None
| ceq_instance n : codec_eq (PyInstance n) (PyInstance n).

(** ** Nesting *)


(** [n] lists around [None]: [[...[None]...]]. *)
Fixpoint nest (n : nat) : PyObject :=
  match n with
  | O => Py_None
  | S n' => PyList Exact [nest n']
  end.

(** The first byte of [buf] is none of the tag constants. *)
Definition unknown_tag (T : TagTable) (buf : UserBuffer) : bool :=
  match remaining buf with
  | [] => false
  | b :: _ => negb (existsb (fun t => T t =? b) case_labels)
  end.

(** ** Induction on objects *)

Section PyObject_induction.
Variable P : PyObject -> Prop.
Hypothesis Hint : forall c v, P (PyInt c v).
Hypothesis Hlong : forall c v, P (PyLong c v).
Hypothesis Hfloat : forall c d, P (PyFloat c d).
Hypothesis Hstring : forall c s, P (PyString c s).
Hypothesis Hunicode : forall c s, P (PyUnicode c s).
Hypothesis Hlist : forall c xs, Forall P xs -> P (PyList c xs).
Hypothesis Htuple : forall c xs, Forall P xs -> P (PyTuple c xs).
Hypothesis Hdict :
  forall c es, Forall (fun e => P (fst e) /\ P (snd e)) es -> P (PyDict c es).
Hypothesis Hset : forall c xs, Forall P xs -> P (PySet c xs).
Hypothesis Hfrozenset : forall c xs, Forall P xs -> P (PyFrozenSet c xs).
Hypothesis Hnone : P Py_None.
Hypothesis Hinstance : forall n, P (PyInstance n).

Fixpoint PyObject_nested_ind (v : PyObject) : P v :=
  let all := fix all (xs : list PyObject) : Forall P xs :=
    match xs with
    | [] => Forall_nil P
    | x :: t => Forall_cons x (PyObject_nested_ind x) (all t)
    end in
  match v with
  | PyInt c n => Hint c n
  | PyLong c n => Hlong c n
  | PyFloat c d => Hfloat c d
  | PyString c s => Hstring c s
  | PyUnicode c s => Hunicode c s
  | PyList c xs => Hlist c xs (all xs)
  | PyTuple c xs => Htuple c xs (all xs)
  | PyDict c es =>
      Hdict c es
        ((fix alld (es : list (PyObject * PyObject))
            : Forall (fun e => P (fst e) /\ P (snd e)) es :=
            match es with
            | [] => Forall_nil _
            | (k, x) :: t =>
                Forall_cons (k, x)
                  (conj (PyObject_nested_ind k) (PyObject_nested_ind x))
                  (alld t)
            end) es)
  | PySet c xs => Hset c xs (all xs)
  | PyFrozenSet c xs => Hfrozenset c xs (all xs)
  | Py_None => Hnone
  | PyInstance n => Hinstance n
  end.
End PyObject_induction.


(** ** Decoding back *)

(** [v] decodes back: wherever the envelope of [v] stands in a buffer,
    [deserialize_fuel] with more fuel than the envelope has bytes returns the
    value [v] stands for and leaves the cursor just behind the envelope. *)
Definition decodes_back (T : TagTable) (text_valid : bytes -> bool)
    (v : PyObject) : Prop :=
  forall bs, well_formed text_valid v = true ->
    serialize T v = Ok bs -> len bs <= ULLONG_MAX ->
    forall fuel c rest, (List.length bs < fuel)%nat ->
      deserialize_fuel T text_valid fuel (mkBuffer c (bs ++ rest))
      = Ok (norm v, mkBuffer (c + len bs) rest).

(** ** Progress of the decoders *)

(** A decoding step from [buf] behaves: on success the cursor has moved
    forward by at least [k] bytes, on failure the error is a real one (not
    the exhaustion of the fuel). *)
Definition advances {A} (k : nat) (buf : UserBuffer) (r : res (A * UserBuffer))
  : Prop :=
  match r with
  | Ok (_, buf') =>
      (List.length (remaining buf') + k <= List.length (remaining buf))%nat
  | Err e => e <> FuelExhausted
  end.

(** ** Subclass instances and sample values *)

(** An instance of a strict subclass of one of the types [getType] checks
    with a [..._CheckExact] macro. *)
Definition strict_subclass_of_exact_kind (v : PyObject) : bool :=
  match v with
  | PyInt (Subclass _) _ | PyLong (Subclass _) _ | PyFloat (Subclass _) _
  | PyList (Subclass _) _ | PyTuple (Subclass _) _ | PyDict (Subclass _) _
  | PySet (Subclass _) _ | PyFrozenSet (Subclass _) _ => true
  | _ => false
  end.

(** A text encoding under which every byte sequence is valid. *)
Definition any_text (s : bytes) : bool := true.

(** The README's third example, [[1, 2, 3, ('4', '5', '6')]]. *)
Definition readme_list : PyObject :=
  PyList Exact
    [PyInt Exact 1; PyInt Exact 2; PyInt Exact 3;
     PyTuple Exact [PyString Exact [52]; PyString Exact [53]; PyString Exact [54]]].

(** A value with one object of every supported kind. *)
Definition sample_value : PyObject :=
  PyDict Exact
    [(PyString Exact [107], PySet Exact [PyInt Exact (-7); PyLong Exact (2 ^ 70)]);
     (PyUnicode (Subclass "Name") [195; 169],
      PyFrozenSet Exact [Py_None; PyFloat Exact [63; 240; 0; 0; 0; 0; 0; 0]]);
     (PyInt Exact 0, PyTuple Exact [PyLong Exact (-1); PyList Exact []])].

(** ** Kinds of objects and of tags *)

(** The layout of an object: the built-in type its object structure is of. *)
Inductive Layout : Type :=
| LInt | LLong | LFloat | LString | LUnicode | LList | LTuple | LDict
| LSet | LFrozenSet | LNone | LInstance.

Definition layout (v : PyObject) : Layout :=
  match v with
  | PyInt _ _ => LInt
  | PyLong _ _ => LLong
  | PyFloat _ _ => LFloat
  | PyString _ _ => LString
  | PyUnicode _ _ => LUnicode
  | PyList _ _ => LList
  | PyTuple _ _ => LTuple
  | PyDict _ _ => LDict
  | PySet _ _ => LSet
  | PyFrozenSet _ _ => LFrozenSet
  | Py_None => LNone
  | PyInstance _ => LInstance
  end.

(** The layout the helper of a case label works on: [case INT_TYPE] calls
    [serializeInt] and [deserializeInt], and so on; the booleans are int
    objects. *)
Definition tag_layout (t : Tag) : Layout :=
  match t with
  | INT_TYPE | NEG_INT_TYPE | BOOL_TRUE_TYPE | BOOL_FALSE_TYPE => LInt
  | LONG_TYPE | NEG_LONG_TYPE => LLong
  | FLOAT_TYPE => LFloat
  | BYTES_TYPE | STRING_TYPE => LString
  | UNICODE_TYPE => LUnicode
  | LIST_TYPE => LList
  | TUPLE_TYPE => LTuple
  | DICT_TYPE => LDict
  | SET_TYPE => LSet
  | FROZEN_SET_TYPE => LFrozenSet
  | NONE_TYPE => LNone
  end.

(** The sign class of a number (false for every other object). *)
Definition is_negative (v : PyObject) : bool :=
  match v with
  | PyInt _ n | PyLong _ n => n <? 0
  | _ => false
  end.

(** The class of an object: its type is the built-in one, or a subclass. *)
Definition class_of (v : PyObject) : Cls :=
  match v with
  | PyInt c _ | PyLong c _ | PyFloat c _ | PyString c _ | PyUnicode c _
  | PyList c _ | PyTuple c _ | PyDict c _ | PySet c _ | PyFrozenSet c _ => c
  | Py_None => Exact
  | PyInstance n => Subclass n
  end.

(** Every error of [r] satisfies [P]. *)
Definition fails_with {A} (P : PyErr -> Prop) (r : res A) : Prop :=
  match r with
  | Ok _ => True
  | Err e => P e
  end.

(** * Properties *)

(** ** The tag table *)

Lemma find_distinct {A} (f : A -> Z) (l : list A) (t : A) :
  distinctb (map f l) = true -> In t l ->
  find (fun u => f u =? f t) l = Some t.
Proof.
  induction l as [|a l IH]; cbn; intros Hd Hin; [contradiction|].
  apply andb_true_iff in Hd as [Hn Hd].
  destruct Hin as [->|Hin]; [now rewrite Z.eqb_refl|].
  destruct (Z.eqb_spec (f a) (f t)) as [E|_]; [|now apply IH].
  exfalso. apply negb_true_iff in Hn.
  assert (existsb (Z.eqb (f a)) (map f l) = true) as Hex; [|congruence].
  apply existsb_exists. exists (f t). split; [now apply in_map | now apply Z.eqb_eq].
Qed.

Lemma switch_label_code (T : TagTable) (t : Tag) :
  tags_wf T = true -> In t case_labels -> switch_label T (T t) = Some t.
Proof.
  unfold tags_wf. intros H Hin.
  apply andb_true_iff in H as [H _]. apply andb_true_iff in H as [_ H].
  now apply find_distinct.
Qed.

Lemma tag_range (T : TagTable) (t : Tag) :
  tags_wf T = true -> In t case_labels -> 1 <= T t <= 255.
Proof.
  unfold tags_wf. intros H Hin.
  apply andb_true_iff in H as [H _]. apply andb_true_iff in H as [H _].
  rewrite forallb_forall in H. specialize (H t Hin). lia.
Qed.

Lemma string_tag (T : TagTable) : tags_wf T = true -> T STRING_TYPE = T BYTES_TYPE.
Proof.
  unfold tags_wf. intro H. apply andb_true_iff in H as [_ H]. lia.
Qed.

Lemma switch_label_unknown (T : TagTable) (b : Z) :
  existsb (fun t => T t =? b) case_labels = false -> switch_label T b = None.
Proof.
  intro H. unfold switch_label.
  destruct (find (fun t => T t =? b) case_labels) as [t|] eqn:E; [|reflexivity].
  apply find_some in E as [Hin Ht].
  assert (existsb (fun t => T t =? b) case_labels = true) as Hex; [|congruence].
  apply existsb_exists. now exists t.
Qed.

Ltac in_labels := cbn; tauto.

(** ** Type detection *)

Lemma ob_size_sign (c : Cls) (v : Z) : (ob_size (PyLong c v) <? 0) = (v <? 0).
Proof.
  unfold ob_size, PyLong_SHIFT.
  destruct (Z.eqb_spec (Z.abs v) 0) as [E|E].
  - assert (v = 0) as -> by lia. reflexivity.
  - pose proof (Z.log2_nonneg (Z.abs v)).
    pose proof (Z.div_pos (Z.log2 (Z.abs v)) 30).
    destruct (Z.ltb_spec v 0) as [Hv|Hv].
    + rewrite Z.sgn_neg by lia. apply Z.ltb_lt. lia.
    + rewrite Z.sgn_pos by lia. apply Z.ltb_ge. lia.
Qed.

Lemma getType_int (T : TagTable) (v : Z) :
  getType T (PyInt Exact v) = if v <? 0 then T NEG_INT_TYPE else T INT_TYPE.
Proof. reflexivity. Qed.

Lemma getType_long (T : TagTable) (v : Z) :
  getType T (PyLong Exact v) = if v <? 0 then T NEG_LONG_TYPE else T LONG_TYPE.
Proof.
  unfold getType. cbn [PyInt_CheckExact PyLong_CheckExact].
  now rewrite ob_size_sign.
Qed.

(** ** Lists and big-endian magnitudes *)

Lemma len_app {A} (l r : list A) : len (l ++ r) = len l + len r.
Proof. unfold len. rewrite length_app. lia. Qed.

Lemma len_cons {A} (x : A) (l : list A) : len (x :: l) = 1 + len l.
Proof. unfold len. cbn [List.length]. lia. Qed.

Lemma len_nonneg {A} (l : list A) : 0 <= len l.
Proof. unfold len. lia. Qed.

Lemma firstn_len_app {A} (l r : list A) :
  firstn (Z.to_nat (len l)) (l ++ r) = l.
Proof.
  unfold len. rewrite Nat2Z.id.
  induction l as [|x l IH]; cbn; [now destruct r | now rewrite IH].
Qed.

Lemma skipn_len_app {A} (l r : list A) :
  skipn (Z.to_nat (len l)) (l ++ r) = r.
Proof.
  unfold len. rewrite Nat2Z.id.
  induction l as [|x l IH]; cbn; [reflexivity | exact IH].
Qed.

Lemma be_value_snoc (l : bytes) (b : byte) :
  be_value (l ++ [b]) = be_value l * 256 + b.
Proof. unfold be_value. now rewrite fold_left_app. Qed.

Lemma be_bytes_length (k : nat) (n : Z) : List.length (be_bytes k n) = k.
Proof.
  revert n. induction k as [|k IH]; intro n; cbn; [reflexivity|].
  rewrite length_app, IH. cbn. lia.
Qed.

Lemma be_value_be_bytes (k : nat) (n : Z) :
  0 <= n < 256 ^ Z.of_nat k -> be_value (be_bytes k n) = n.
Proof.
  revert n. induction k as [|k IH]; intros n Hn.
  - cbn in *. lia.
  - cbn [be_bytes]. rewrite be_value_snoc, IH.
    + pose proof (Z.div_mod n 256). lia.
    + rewrite Nat2Z.inj_succ, Z.pow_succ_r in Hn by lia.
      split; [apply Z.div_pos; lia | apply Z.div_lt_upper_bound; lia].
Qed.

Lemma byte_len_bound (n : Z) : 0 <= n -> n < 256 ^ Z.of_nat (byte_len n) \/ n = 0.
Proof.
  intro Hn. unfold byte_len. destruct (Z.leb_spec n 0) as [H0|H0]; [right; lia|left].
  pose proof (Z.log2_nonneg n) as Hl.
  destruct (Z.log2_spec n H0) as [_ Hu].
  rewrite Z2Nat.id by (pose proof (Z.div_pos (Z.log2 n) 8); lia).
  replace 256 with (2 ^ 8) by reflexivity.
  rewrite <- Z.pow_mul_r by (pose proof (Z.div_pos (Z.log2 n) 8); lia).
  eapply Z.lt_le_trans; [exact Hu|].
  apply Z.pow_le_mono_r; [lia|].
  pose proof (Z.div_mod (Z.log2 n) 8). pose proof (Z.mod_pos_bound (Z.log2 n) 8). lia.
Qed.

Lemma byte_len_ull (n : Z) : 0 <= n <= ULLONG_MAX -> (byte_len n <= 8)%nat.
Proof.
  intros [Hn Hm]. unfold byte_len. destruct (Z.leb_spec n 0) as [H0|H0]; [lia|].
  assert (Z.log2 n < 64) as Hl.
  { apply Z.log2_lt_pow2; [lia|]. unfold ULLONG_MAX in Hm. lia. }
  pose proof (Z.log2_nonneg n).
  assert (Z.log2 n / 8 < 8) by (apply Z.div_lt_upper_bound; lia).
  pose proof (Z.div_pos (Z.log2 n) 8). lia.
Qed.

Lemma byte_len_pos (n : Z) : 0 < n -> (1 <= byte_len n)%nat.
Proof.
  intro Hn. unfold byte_len. destruct (Z.leb_spec n 0); [lia|].
  pose proof (Z.log2_nonneg n). pose proof (Z.div_pos (Z.log2 n) 8). lia.
Qed.

Lemma magnitude_value (n : Z) : 0 <= n -> be_value (magnitude n) = n.
Proof.
  intro Hn. unfold magnitude. destruct (Z.eqb_spec n 0) as [->|Hz]; [reflexivity|].
  apply be_value_be_bytes. destruct (byte_len_bound n Hn); lia.
Qed.

(** ** VarSize *)

Lemma small_byte_bits (k : Z) :
  0 <= k <= 127 -> Z.testbit k 7 = false /\ Z.land k 127 = k.
Proof.
  intro Hk. split.
  - apply Z.testbit_false; [lia|]. rewrite Z.div_small; [reflexivity|].
    change (2 ^ 7) with 128. lia.
  - change 127 with (Z.ones 7). rewrite Z.land_ones by lia.
    apply Z.mod_small. change (2 ^ 7) with 128. lia.
Qed.

Lemma short_byte_bits (n : Z) :
  0 <= n <= 127 ->
  Z.testbit (Z.lor 128 n) 7 = true /\ Z.land (Z.lor 128 n) 127 = n.
Proof.
  intro Hn. destruct (small_byte_bits n Hn) as [_ Hl]. split.
  - rewrite Z.lor_spec. reflexivity.
  - rewrite Z.land_lor_distr_l, Hl. reflexivity.
Qed.

Lemma readBuffer_app (bs rest : bytes) (c : Z) :
  readBuffer (len bs) (mkBuffer c (bs ++ rest))
  = Ok (bs, mkBuffer (c + len bs) rest).
Proof.
  unfold readBuffer. cbn [remaining consumed].
  rewrite len_app. pose proof (len_nonneg rest).
  destruct (Z.ltb_spec (len bs + len rest) (len bs)); [lia|].
  now rewrite firstn_len_app, skipn_len_app.
Qed.

Lemma decodeSize_encodeSize (n c : Z) (rest : bytes) :
  0 <= n <= ULLONG_MAX ->
  decodeSize (mkBuffer c (encodeSize n ++ rest))
  = Ok (n, mkBuffer (c + len (encodeSize n)) rest).
Proof.
  intro Hn. unfold encodeSize, decodeSize.
  destruct (Z.leb_spec n 127) as [Hs|Hb].
  - cbn [app readByte remaining consumed bind].
    destruct (short_byte_bits n) as [-> ->]; [lia|]. reflexivity.
  - set (k := byte_len n).
    assert (1 <= k <= 8)%nat as Hk
      by (split; [apply byte_len_pos; lia | apply byte_len_ull; lia]).
    cbn [app readByte remaining consumed bind].
    destruct (small_byte_bits (Z.of_nat k)) as [-> ->]; [lia|].
    assert (Z.of_nat k = len (be_bytes k n)) as Hlen
      by (unfold len; now rewrite be_bytes_length).
    rewrite Hlen at 1. rewrite readBuffer_app. cbn [bind].
    rewrite be_value_be_bytes by (destruct (byte_len_bound n); [lia | split; [lia | exact H] | lia]).
    rewrite len_cons. do 2 f_equal. f_equal. lia.
Qed.

Lemma encodeSize_length (n : Z) : 1 <= len (encodeSize n).
Proof.
  unfold encodeSize. destruct (n <=? 127); rewrite len_cons;
    match goal with |- _ <= 1 + len ?l => pose proof (len_nonneg l) end; lia.
Qed.

(** ** Structural equality decides equality *)

Lemma list_eqb_eq {A} (eqb : A -> A -> bool) (xs : list A) :
  Forall (fun x => forall y, eqb x y = true <-> x = y) xs ->
  forall ys, list_eqb eqb xs ys = true <-> xs = ys.
Proof.
  induction 1 as [|x xs Hx _ IH]; intros [|y ys]; cbn;
    try (split; [discriminate | congruence]); [tauto|].
  rewrite andb_true_iff, Hx, IH. split; [intros [-> ->]; reflexivity|].
  intro E. now inversion E.
Qed.

Lemma bytes_eqb_eq (xs ys : list Z) : list_eqb Z.eqb xs ys = true <-> xs = ys.
Proof.
  apply list_eqb_eq. apply Forall_forall. intros x _ y. apply Z.eqb_eq.
Qed.

Lemma Cls_eqb_eq (c c' : Cls) : Cls_eqb c c' = true <-> c = c'.
Proof.
  destruct c as [|n], c' as [|n']; cbn; try (split; [discriminate | congruence]);
    [tauto|].
  rewrite String.eqb_eq. split; [congruence | intro E; now inversion E].
Qed.

Lemma PyObject_eqb_eq (a : PyObject) : forall b, PyObject_eqb a b = true <-> a = b.
Proof.
  induction a using PyObject_nested_ind; intros [];
    cbn [PyObject_eqb]; try (split; [discriminate | congruence]);
    try tauto;
    try (rewrite andb_true_iff, Cls_eqb_eq, ?Z.eqb_eq, ?bytes_eqb_eq;
         split; [intros [-> ->]; reflexivity | intro E; now inversion E]);
    try (rewrite andb_true_iff, Cls_eqb_eq, (list_eqb_eq _ _ H);
         split; [intros [-> ->]; reflexivity | intro E; now inversion E]).
  - (* dict *)
    rewrite andb_true_iff, Cls_eqb_eq.
    match goal with |- _ /\ ?f es entries = true <-> _ =>
      assert (forall ys, f es ys = true <-> es = ys) as Hes end.
    { clear c c0 entries. induction H as [|[k x] es [Hk Hx] _ IH];
        intros [|[k' x'] ys]; try (split; [discriminate | congruence]); [tauto|].
      cbn [fst snd] in *. rewrite !andb_true_iff, Hk, Hx, IH.
      split; [intros [[-> ->] ->]; reflexivity | intro E; now inversion E]. }
    rewrite Hes. split; [intros [-> ->]; reflexivity | intro E; now inversion E].
  - rewrite String.eqb_eq. split; [congruence | intro E; now inversion E].
Qed.

Lemma existsb_eqb_In (x : PyObject) (l : list PyObject) :
  existsb (PyObject_eqb x) l = true <-> In x l.
Proof.
  rewrite existsb_exists. split.
  - intros (y & Hy & E). apply PyObject_eqb_eq in E. now subst.
  - intro H. exists x. split; [exact H | now apply PyObject_eqb_eq].
Qed.

Lemma distinct_objects_NoDup (l : list PyObject) :
  distinct_objects l = true -> NoDup l.
Proof.
  induction l as [|x l IH]; cbn; intro H; [constructor|].
  apply andb_true_iff in H as [Hx Hl]. constructor; [|now apply IH].
  intro Hin. apply existsb_eqb_In in Hin. rewrite Hin in Hx. discriminate.
Qed.

(** Adding pairwise different elements one by one rebuilds the sequence. *)
Lemma PySet_Add_rebuild (l acc : list PyObject) :
  NoDup (acc ++ l) -> fold_left PySet_Add l acc = acc ++ l.
Proof.
  revert acc. induction l as [|x l IH]; intros acc Hnd; cbn [fold_left].
  - now rewrite app_nil_r.
  - unfold PySet_Add at 2.
    destruct (existsb (PyObject_eqb x) acc) eqn:E.
    + apply existsb_eqb_In in E. apply NoDup_remove_2 in Hnd.
      exfalso. apply Hnd. apply in_or_app. now left.
    + rewrite IH; rewrite <- app_assoc; [reflexivity | exact Hnd].
Qed.

Lemma PyDict_SetItem_rebuild (l acc : list (PyObject * PyObject)) :
  NoDup (map fst (acc ++ l)) ->
  fold_left (fun d e => PyDict_SetItem d (fst e) (snd e)) l acc = acc ++ l.
Proof.
  revert acc. induction l as [|[k x] l IH]; intros acc Hnd; cbn [fold_left].
  - now rewrite app_nil_r.
  - cbn [fst snd]. unfold PyDict_SetItem at 2.
    destruct (existsb (fun e => PyObject_eqb k (fst e)) acc) eqn:E.
    + apply existsb_exists in E as ([k' x'] & Hin & Hk).
      apply PyObject_eqb_eq in Hk. cbn in Hk. subst k'.
      rewrite map_app in Hnd. cbn in Hnd. apply NoDup_remove_2 in Hnd.
      exfalso. apply Hnd. apply in_or_app. left.
      change k with (fst (k, x')). now apply in_map.
    + rewrite IH; rewrite <- app_assoc; [reflexivity | exact Hnd].
Qed.

(** ** The codec's equality relates a value to the value it stands for *)

Lemma codec_eq_norm (v : PyObject) : codec_eq v (norm v).
Proof.
  induction v using PyObject_nested_ind; cbn [norm]; try constructor.
  - induction H; cbn; constructor; auto.
  - induction H; cbn; constructor; auto.
  - induction H; cbn; constructor; auto.
  - intros x Hx. exists (norm x). split; [now apply in_map|].
    rewrite Forall_forall in H. now apply H.
  - intros y Hy. apply in_map_iff in Hy as (x & <- & Hx). exists x.
    split; [exact Hx|]. rewrite Forall_forall in H. now apply H.
  - intros x Hx. exists (norm x). split; [now apply in_map|].
    rewrite Forall_forall in H. now apply H.
  - intros y Hy. apply in_map_iff in Hy as (x & <- & Hx). exists x.
    split; [exact Hx|]. rewrite Forall_forall in H. now apply H.
Qed.

(** ** serialize *)

Lemma tag_inj (T : TagTable) (t u : Tag) :
  tags_wf T = true -> In t case_labels -> In u case_labels -> T t = T u -> t = u.
Proof.
  intros HT Ht Hu E.
  pose proof (switch_label_code T t HT Ht) as H1.
  pose proof (switch_label_code T u HT Hu) as H2.
  rewrite E in H1. congruence.
Qed.

Lemma tag_nonzero (T : TagTable) (t : Tag) :
  tags_wf T = true -> In t case_labels -> (T t =? 0) = false.
Proof. intros HT Ht. pose proof (tag_range T t HT Ht). apply Z.eqb_neq. lia. Qed.

Lemma serialize_unfold (T : TagTable) (object : PyObject) :
  serialize T object =
  let type := getType T object in
  if type =? 0 then Err (TypeError_UnknownObjectType (tp_name object))
  else
    body <-
      match switch_label T type with
      | Some INT_TYPE | Some NEG_INT_TYPE => serializeInt object type
      | Some LONG_TYPE | Some NEG_LONG_TYPE => serializeLong object type
      | Some FLOAT_TYPE => serializeFloat object
      | Some BYTES_TYPE => serializeBytes object
      | Some UNICODE_TYPE => serializeUnicode object
      | Some LIST_TYPE => serializeList (serialize T) object
      | Some TUPLE_TYPE => serializeTuple (serialize T) object
      | Some DICT_TYPE => serializeDict (serialize T) object
      | Some SET_TYPE | Some FROZEN_SET_TYPE => serializeSet (serialize T) object
      | Some BOOL_TRUE_TYPE | Some BOOL_FALSE_TYPE => serializeBool
      | Some NONE_TYPE => serializeNone
      | Some STRING_TYPE | None =>
          Err (TypeError_Unserializable (tp_name object))
      end ;;
    Ok (constructHeaders (len body) type ++ body).
Proof. destruct object; reflexivity. Qed.

(** The tag name under which [getType] files a value it recognises. *)
Lemma getType_label (T : TagTable) (v : PyObject) :
  tags_wf T = true ->
  getType T v = 0 \/ exists t, In t case_labels /\ getType T v = T t.
Proof.
  intro HT. pose proof (string_tag T HT) as Hs.
  destruct v as [[|?] n|[|?] n|[|?] ?|? ?|? ?|[|?] ?|[|?] ?|[|?] ?|[|?] ?|[|?] ?| |?];
    try (left; reflexivity); right.
  - rewrite getType_int. destruct (n <? 0); eexists; split; [|reflexivity| |reflexivity]; in_labels.
  - rewrite getType_long. destruct (n <? 0); eexists; split; [|reflexivity| |reflexivity]; in_labels.
  - exists FLOAT_TYPE. split; [in_labels | reflexivity].
  - exists BYTES_TYPE. split; [in_labels | destruct c; exact Hs].
  - exists UNICODE_TYPE. split; [in_labels | destruct c; reflexivity].
  - exists LIST_TYPE. split; [in_labels | reflexivity].
  - exists TUPLE_TYPE. split; [in_labels | reflexivity].
  - exists DICT_TYPE. split; [in_labels | reflexivity].
  - exists SET_TYPE. split; [in_labels | reflexivity].
  - exists FROZEN_SET_TYPE. split; [in_labels | reflexivity].
  - exists NONE_TYPE. split; [in_labels | reflexivity].
Qed.

(** An envelope is its tag, the VarSize of its body and its body. *)
Lemma serialize_envelope (T : TagTable) (v : PyObject) (bs : list Z) :
  serialize T v = Ok bs ->
  exists body, bs = getType T v :: encodeSize (len body) ++ body.
Proof.
  rewrite serialize_unfold. cbv zeta.
  destruct (getType T v =? 0); [discriminate|].
  match goal with |- bind ?r _ = _ -> _ => destruct r as [body|e] end;
    cbn [bind]; [|discriminate].
  intro E. inversion E. exists body. reflexivity.
Qed.

Lemma serialize_length (T : TagTable) (v : PyObject) (bs : list Z) :
  serialize T v = Ok bs -> 2 <= len bs.
Proof.
  intro H. apply serialize_envelope in H as (body & ->).
  rewrite len_cons, len_app.
  pose proof (encodeSize_length (len body)). pose proof (len_nonneg body). lia.
Qed.

Lemma serializeItems_length (T : TagTable) (xs : list PyObject) (more : list Z) :
  serializeItems (serialize T) xs = Ok more -> 2 * len xs <= len more.
Proof.
  revert more. induction xs as [|x xs IH]; intros more; cbn [serializeItems].
  - intro E. inversion E. cbn. lia.
  - destruct (serialize T x) as [bs|] eqn:Ex; cbn [bind]; [|discriminate].
    destruct (serializeItems (serialize T) xs) as [m|]; cbn [bind]; [|discriminate].
    intro E. inversion E. rewrite len_cons, len_app.
    pose proof (serialize_length T x bs Ex). specialize (IH m eq_refl). lia.
Qed.

Lemma serializePairs_length (T : TagTable) (es : list (PyObject * PyObject))
    (more : list Z) :
  serializePairs (serialize T) es = Ok more -> 4 * len es <= len more.
Proof.
  revert more. induction es as [|[k x] es IH]; intros more; cbn [serializePairs].
  - intro E. inversion E. cbn. lia.
  - destruct (serialize T k) as [kb|] eqn:Ek; cbn [bind]; [|discriminate].
    destruct (serialize T x) as [vb|] eqn:Ex; cbn [bind]; [|discriminate].
    destruct (serializePairs (serialize T) es) as [m|]; cbn [bind]; [|discriminate].
    intro E. inversion E. rewrite len_cons, !len_app.
    pose proof (serialize_length T k kb Ek). pose proof (serialize_length T x vb Ex).
    specialize (IH m eq_refl). lia.
Qed.

(** [serialize] succeeds exactly on the supported values, and fails on the
    others with the [TypeError] of [getType]. *)
Lemma serialize_supported (T : TagTable) (v : PyObject) :
  tags_wf T = true ->
  if supported v then exists bs, serialize T v = Ok bs
  else exists n, serialize T v = Err (TypeError_UnknownObjectType n).
Proof.
  intro HT. pose proof (string_tag T HT) as Hs.
  assert (forall xs, Forall (fun v =>
            if supported v then exists bs, serialize T v = Ok bs
            else exists n, serialize T v = Err (TypeError_UnknownObjectType n)) xs ->
          if forallb supported xs
          then exists more, serializeItems (serialize T) xs = Ok more
          else exists n, serializeItems (serialize T) xs
                         = Err (TypeError_UnknownObjectType n)) as Hitems.
  { induction 1 as [|x xs Hx _ IH]; cbn [forallb serializeItems]; [now eexists|].
    destruct (supported x).
    - destruct Hx as [bs ->]. cbn [bind andb].
      destruct (forallb supported xs).
      + destruct IH as [m ->]. now eexists.
      + destruct IH as [n ->]. now eexists.
    - destruct Hx as [n ->]. now eexists. }
  induction v as [[|?] n|[|?] n|[|?] ?|? ?|? ?|[|?] ? IH|[|?] ? IH|[|?] ? IH
                 |[|?] ? IH|[|?] ? IH| |?] using PyObject_nested_ind;
    cbn [supported]; try (eexists; reflexivity).
  - rewrite serialize_unfold, getType_int. cbv zeta.
    destruct (n <? 0); rewrite tag_nonzero, switch_label_code by (auto; in_labels);
      now eexists.
  - rewrite serialize_unfold, getType_long. cbv zeta.
    destruct (n <? 0); rewrite tag_nonzero, switch_label_code by (auto; in_labels);
      now eexists.
  - rewrite serialize_unfold. change (getType T (PyFloat Exact d)) with (T FLOAT_TYPE).
    cbv zeta. rewrite tag_nonzero, switch_label_code by (auto; in_labels). now eexists.
  - rewrite serialize_unfold.
    replace (getType T (PyString c s)) with (T BYTES_TYPE) by (destruct c; now rewrite <- Hs).
    cbv zeta. rewrite tag_nonzero, switch_label_code by (auto; in_labels). now eexists.
  - rewrite serialize_unfold.
    replace (getType T (PyUnicode c s)) with (T UNICODE_TYPE) by (now destruct c).
    cbv zeta. rewrite tag_nonzero, switch_label_code by (auto; in_labels). now eexists.
  - rewrite serialize_unfold. change (getType T (PyList Exact xs)) with (T LIST_TYPE).
    cbv zeta. rewrite tag_nonzero, switch_label_code by (auto; in_labels).
    cbn [serializeList]. specialize (Hitems xs IH).
    destruct (forallb supported xs); [destruct Hitems as [m ->] | destruct Hitems as [n ->]];
      now eexists.
  - rewrite serialize_unfold. change (getType T (PyTuple Exact xs)) with (T TUPLE_TYPE).
    cbv zeta. rewrite tag_nonzero, switch_label_code by (auto; in_labels).
    cbn [serializeTuple]. specialize (Hitems xs IH).
    destruct (forallb supported xs); [destruct Hitems as [m ->] | destruct Hitems as [n ->]];
      now eexists.
  - rewrite serialize_unfold. change (getType T (PyDict Exact es)) with (T DICT_TYPE).
    cbv zeta. rewrite tag_nonzero, switch_label_code by (auto; in_labels).
    cbn [serializeDict].
    assert (if forallb (fun e => supported (fst e) && supported (snd e)) es
            then exists more, serializePairs (serialize T) es = Ok more
            else exists n, serializePairs (serialize T) es
                           = Err (TypeError_UnknownObjectType n)) as Hp.
    { induction IH as [|[k x] es [Hk Hx] _ IHp]; cbn [forallb serializePairs fst snd] in *;
        [now eexists|].
      destruct (supported k); [destruct Hk as [kb ->] | destruct Hk as [n ->]; now eexists].
      destruct (supported x); [destruct Hx as [vb ->] | destruct Hx as [n ->]; now eexists].
      cbn [bind andb].
      destruct (forallb _ es); [destruct IHp as [m ->] | destruct IHp as [n ->]];
        now eexists. }
    destruct (forallb _ es); [destruct Hp as [m ->] | destruct Hp as [n ->]]; now eexists.
  - rewrite serialize_unfold. change (getType T (PySet Exact xs)) with (T SET_TYPE).
    cbv zeta. rewrite tag_nonzero, switch_label_code by (auto; in_labels).
    cbn [serializeSet]. specialize (Hitems xs IH).
    destruct (forallb supported xs); [destruct Hitems as [m ->] | destruct Hitems as [n ->]];
      now eexists.
  - rewrite serialize_unfold.
    change (getType T (PyFrozenSet Exact xs)) with (T FROZEN_SET_TYPE).
    cbv zeta. rewrite tag_nonzero, switch_label_code by (auto; in_labels).
    cbn [serializeSet]. specialize (Hitems xs IH).
    destruct (forallb supported xs); [destruct Hitems as [m ->] | destruct Hitems as [n ->]];
      now eexists.
  - rewrite serialize_unfold. change (getType T Py_None) with (T NONE_TYPE).
    cbv zeta. rewrite tag_nonzero, switch_label_code by (auto; in_labels). now eexists.
Qed.

(** ** Round trip *)

Lemma envelope_app (n type : Z) (body rest : list Z) :
  (constructHeaders n type ++ body) ++ rest = type :: encodeSize n ++ body ++ rest.
Proof. unfold constructHeaders. rewrite <- app_assoc. reflexivity. Qed.

Lemma envelope_len (n type : Z) (body : list Z) :
  len (constructHeaders n type ++ body) = 1 + len (encodeSize n) + len body.
Proof. unfold constructHeaders. rewrite len_app, len_cons. lia. Qed.

Lemma parseHeaders_envelope (type c : Z) (body rest : list Z) :
  0 <= len body <= ULLONG_MAX ->
  parseHeaders (mkBuffer c (type :: encodeSize (len body) ++ body ++ rest))
  = Ok (type, len body,
        mkBuffer (c + 1 + len (encodeSize (len body))) (body ++ rest)).
Proof.
  intro Hb. unfold parseHeaders. cbn [readByte remaining consumed bind].
  rewrite decodeSize_encodeSize by exact Hb. cbn [bind remaining].
  rewrite len_app. pose proof (len_nonneg rest).
  destruct (Z.ltb_spec (len body + len rest) (len body)); [lia | reflexivity].
Qed.

Lemma deserialize_fuel_S (T : TagTable) (tv : list Z -> bool) (f : nat)
    (buf : UserBuffer) :
  deserialize_fuel T tv (S f) buf =
  let dec := deserialize_fuel T tv f in
  '(type, size, buf) <- parseHeaders buf ;;
  match switch_label T type with
  | Some INT_TYPE | Some NEG_INT_TYPE => deserializeInt T buf type size
  | Some LONG_TYPE | Some NEG_LONG_TYPE => deserializeLong T buf type size
  | Some FLOAT_TYPE => deserializeFloat buf
  | Some UNICODE_TYPE => deserializeUnicode tv buf size
  | Some BYTES_TYPE => deserializeBytes buf size
  | Some LIST_TYPE => deserializeList dec f buf
  | Some TUPLE_TYPE => deserializeTuple dec f buf
  | Some DICT_TYPE => deserializeDict dec f buf
  | Some SET_TYPE | Some FROZEN_SET_TYPE => deserializeSet T dec f buf type
  | Some BOOL_TRUE_TYPE | Some BOOL_FALSE_TYPE => Ok (deserializeBool T type, buf)
  | Some NONE_TYPE => Ok (deserializeNone, buf)
  | Some STRING_TYPE | None => Err (TypeError_UnrecognizedTypeFlag type)
  end.
Proof. reflexivity. Qed.

Lemma deserializeItems_unfold dec (lf : nat) (n : Z) (buf : UserBuffer) :
  deserializeItems dec lf n buf =
  if n <=? 0 then Ok ([], buf)
  else match lf with
       | O => Err FuelExhausted
       | S lf' =>
           '(x, buf1) <- dec buf ;;
           '(xs, buf2) <- deserializeItems dec lf' (n - 1) buf1 ;;
           Ok (x :: xs, buf2)
       end.
Proof. destruct lf; reflexivity. Qed.

Lemma deserializePairs_unfold dec (lf : nat) (n : Z) (buf : UserBuffer) :
  deserializePairs dec lf n buf =
  if n <=? 0 then Ok ([], buf)
  else match lf with
       | O => Err FuelExhausted
       | S lf' =>
           '(k, buf1) <- dec buf ;;
           '(v, buf2) <- dec buf1 ;;
           '(xs, buf3) <- deserializePairs dec lf' (n - 1) buf2 ;;
           Ok ((k, v) :: xs, buf3)
       end.
Proof. destruct lf; reflexivity. Qed.

Lemma length_len {A} (l : list A) (n : nat) :
  (List.length l < n)%nat <-> len l < Z.of_nat n.
Proof. unfold len. lia. Qed.

Section RoundTrip.
Variable T : TagTable.
Variable tv : list Z -> bool.
Hypothesis HT : tags_wf T = true.

Lemma items_decode_back (xs : list PyObject) :
  Forall (decodes_back T tv) xs ->
  forall more, forallb (well_formed tv) xs = true ->
    serializeItems (serialize T) xs = Ok more -> len more <= ULLONG_MAX ->
    forall f lf c rest, len more < Z.of_nat f -> len xs <= Z.of_nat lf ->
      deserializeItems (deserialize_fuel T tv f) lf (len xs)
                       (mkBuffer c (more ++ rest))
      = Ok (map norm xs, mkBuffer (c + len more) rest).
Proof.
  induction 1 as [|x xs Hx _ IH]; intros more Hwf Hser Hmax f lf c rest Hf Hlf.
  - cbn in Hser. inversion Hser. rewrite deserializeItems_unfold.
    cbn. do 2 f_equal. f_equal. lia.
  - cbn [forallb] in Hwf. apply andb_true_iff in Hwf as [Hwx Hwxs].
    cbn [serializeItems] in Hser.
    destruct (serialize T x) as [bs|] eqn:Ex; cbn [bind] in Hser; [|discriminate].
    destruct (serializeItems (serialize T) xs) as [m|] eqn:Em; cbn [bind] in Hser;
      [|discriminate].
    inversion Hser; subst more; clear Hser.
    rewrite len_app in Hmax, Hf. rewrite len_cons in *.
    pose proof (len_nonneg bs). pose proof (len_nonneg m). pose proof (len_nonneg xs).
    rewrite deserializeItems_unfold.
    destruct (Z.leb_spec (1 + len xs) 0); [lia|].
    destruct lf as [|lf]; [lia|].
    rewrite <- app_assoc.
    rewrite (Hx bs Hwx Ex) by (try apply length_len; lia).
    cbn [bind]. replace (1 + len xs - 1) with (len xs) by lia.
    rewrite (IH m Hwxs eq_refl) by lia. cbn [bind map].
    do 2 f_equal. f_equal. rewrite len_app. lia.
Qed.

Lemma pairs_decode_back (es : list (PyObject * PyObject)) :
  Forall (fun e => decodes_back T tv (fst e) /\ decodes_back T tv (snd e)) es ->
  forall more,
    forallb (fun e => well_formed tv (fst e) && well_formed tv (snd e)) es = true ->
    serializePairs (serialize T) es = Ok more -> len more <= ULLONG_MAX ->
    forall f lf c rest, len more < Z.of_nat f -> len es <= Z.of_nat lf ->
      deserializePairs (deserialize_fuel T tv f) lf (len es)
                       (mkBuffer c (more ++ rest))
      = Ok (map (fun e => (norm (fst e), norm (snd e))) es,
            mkBuffer (c + len more) rest).
Proof.
  induction 1 as [|[k x] es [Hk Hx] _ IH];
    intros more Hwf Hser Hmax f lf c rest Hf Hlf.
  - cbn in Hser. inversion Hser. rewrite deserializePairs_unfold.
    cbn. do 2 f_equal. f_equal. lia.
  - cbn [forallb fst snd] in *. apply andb_true_iff in Hwf as [Hw Hwes].
    apply andb_true_iff in Hw as [Hwk Hwx].
    cbn [serializePairs] in Hser.
    destruct (serialize T k) as [kb|] eqn:Ek; cbn [bind] in Hser; [|discriminate].
    destruct (serialize T x) as [vb|] eqn:Ex; cbn [bind] in Hser; [|discriminate].
    destruct (serializePairs (serialize T) es) as [m|] eqn:Em; cbn [bind] in Hser;
      [|discriminate].
    inversion Hser; subst more; clear Hser.
    rewrite !len_app in Hmax, Hf. rewrite len_cons in *.
    pose proof (len_nonneg kb). pose proof (len_nonneg vb).
    pose proof (len_nonneg m). pose proof (len_nonneg es).
    rewrite deserializePairs_unfold.
    destruct (Z.leb_spec (1 + len es) 0); [lia|].
    destruct lf as [|lf]; [lia|].
    rewrite <- !app_assoc.
    rewrite (Hk kb Hwk Ek) by (try apply length_len; lia). cbn [bind].
    rewrite (Hx vb Hwx Ex) by (try apply length_len; lia). cbn [bind].
    replace (1 + len es - 1) with (len es) by lia.
    rewrite (IH m Hwes eq_refl) by lia. cbn [bind map fst snd].
    do 2 f_equal. f_equal. rewrite !len_app. lia.
Qed.

End RoundTrip.

Section RoundTripAll.
Variable T : TagTable.
Variable tv : list Z -> bool.
Hypothesis HT : tags_wf T = true.

(** What [serialize] returns for a value whose type has the label [t]. *)
Lemma serialize_label (v : PyObject) (t : Tag) (bs : list Z) :
  In t case_labels -> getType T v = T t -> serialize T v = Ok bs ->
  exists body,
    bs = constructHeaders (len body) (T t) ++ body /\
    match t with
    | INT_TYPE | NEG_INT_TYPE => serializeInt v (T t)
    | LONG_TYPE | NEG_LONG_TYPE => serializeLong v (T t)
    | FLOAT_TYPE => serializeFloat v
    | BYTES_TYPE => serializeBytes v
    | UNICODE_TYPE => serializeUnicode v
    | LIST_TYPE => serializeList (serialize T) v
    | TUPLE_TYPE => serializeTuple (serialize T) v
    | DICT_TYPE => serializeDict (serialize T) v
    | SET_TYPE | FROZEN_SET_TYPE => serializeSet (serialize T) v
    | BOOL_TRUE_TYPE | BOOL_FALSE_TYPE => serializeBool
    | NONE_TYPE => serializeNone
    | STRING_TYPE => Err (TypeError_Unserializable (tp_name v))
    end = Ok body.
Proof.
  intros Hin Hty. rewrite serialize_unfold, Hty. cbv zeta.
  rewrite tag_nonzero, switch_label_code by auto.
  match goal with |- bind ?r _ = _ -> _ => destruct r as [body|e] eqn:E end;
    cbn [bind]; [|discriminate].
  intro H. inversion H. exists body. split; [reflexivity|].
  rewrite <- E. destruct t; reflexivity.
Qed.

(** Decoding an envelope starts by reading back its tag and body length. *)
Lemma deserialize_fuel_envelope (f : nat) (c : Z) (t : Tag) (body rest : list Z) :
  In t case_labels -> 0 <= len body <= ULLONG_MAX ->
  deserialize_fuel T tv (S f)
    (mkBuffer c ((constructHeaders (len body) (T t) ++ body) ++ rest))
  = let dec := deserialize_fuel T tv f in
    let buf := mkBuffer (c + 1 + len (encodeSize (len body))) (body ++ rest) in
    let type := T t in
    let size := len body in
    match t with
    | INT_TYPE | NEG_INT_TYPE => deserializeInt T buf type size
    | LONG_TYPE | NEG_LONG_TYPE => deserializeLong T buf type size
    | FLOAT_TYPE => deserializeFloat buf
    | UNICODE_TYPE => deserializeUnicode tv buf size
    | BYTES_TYPE => deserializeBytes buf size
    | LIST_TYPE => deserializeList dec f buf
    | TUPLE_TYPE => deserializeTuple dec f buf
    | DICT_TYPE => deserializeDict dec f buf
    | SET_TYPE | FROZEN_SET_TYPE => deserializeSet T dec f buf type
    | BOOL_TRUE_TYPE | BOOL_FALSE_TYPE => Ok (deserializeBool T type, buf)
    | NONE_TYPE => Ok (deserializeNone, buf)
    | STRING_TYPE => Err (TypeError_UnrecognizedTypeFlag type)
    end.
Proof.
  intros Hin Hb. rewrite deserialize_fuel_S, envelope_app. cbv zeta.
  rewrite parseHeaders_envelope by exact Hb. cbn [bind].
  rewrite switch_label_code by auto. destruct t; reflexivity.
Qed.

Lemma neq_tag (t u : Tag) :
  In t case_labels -> In u case_labels -> t <> u -> (T t =? T u) = false.
Proof.
  intros Ht Hu Hne. apply Z.eqb_neq. intro E. apply Hne.
  now apply (tag_inj T).
Qed.

Ltac buffer_eq :=
  do 2 f_equal; try (f_equal; rewrite ?envelope_len, ?len_app, ?len_cons; lia).

(** The proof pattern of a scalar: name the body, open the envelope, read
    the body back. *)
Ltac open_envelope t Hser Hmax fuel :=
  let body := fresh "body" in
  let Hbody := fresh "Hbody" in
  apply (serialize_label _ t) in Hser as (body & -> & Hbody);
    [|in_labels|first [reflexivity | assumption]];
  rewrite envelope_len in *;
  pose proof (encodeSize_length (len body));
  pose proof (len_nonneg body);
  destruct fuel as [|fuel]; [lia|];
  rewrite deserialize_fuel_envelope by (first [in_labels | lia]);
  cbv zeta.

Theorem decodes_back_all (v : PyObject) : decodes_back T tv v.
Proof.
  pose proof (string_tag T HT) as Hs.
  induction v as [[|?] n|[|?] n|[|?] d|cl s|cl s|[|?] xs IH|[|?] xs IH|[|?] es IH
                 |[|?] xs IH|[|?] xs IH| |?] using PyObject_nested_ind;
    intros bs Hwf Hser Hmax fuel c rest Hfuel;
    try (cbn in Hser; discriminate);
    apply length_len in Hfuel.
  - (* int *)
    destruct (Z.ltb_spec n 0) as [Hn|Hn].
    + assert (getType T (PyInt Exact n) = T NEG_INT_TYPE) as Hty
        by (rewrite getType_int; destruct (Z.ltb_spec n 0); [reflexivity | lia]).
      open_envelope NEG_INT_TYPE Hser Hmax fuel.
      cbn in Hbody. inversion Hbody; subst body.
      unfold deserializeInt. rewrite readBuffer_app. cbn [bind].
      rewrite Z.eqb_refl, magnitude_value by lia. cbn [norm].
      replace (- Z.abs n) with n by lia. buffer_eq.
    + assert (getType T (PyInt Exact n) = T INT_TYPE) as Hty
        by (rewrite getType_int; destruct (Z.ltb_spec n 0); [lia | reflexivity]).
      open_envelope INT_TYPE Hser Hmax fuel.
      cbn in Hbody. inversion Hbody; subst body.
      unfold deserializeInt. rewrite readBuffer_app. cbn [bind].
      rewrite neq_tag by (try in_labels; discriminate).
      rewrite magnitude_value by lia. cbn [norm].
      replace (Z.abs n) with n by lia. buffer_eq.
  - (* long *)
    destruct (Z.ltb_spec n 0) as [Hn|Hn].
    + assert (getType T (PyLong Exact n) = T NEG_LONG_TYPE) as Hty
        by (rewrite getType_long; destruct (Z.ltb_spec n 0); [reflexivity | lia]).
      open_envelope NEG_LONG_TYPE Hser Hmax fuel.
      cbn in Hbody. inversion Hbody; subst body.
      unfold deserializeLong. rewrite readBuffer_app. cbn [bind].
      rewrite Z.eqb_refl, magnitude_value by lia. cbn [norm].
      replace (- Z.abs n) with n by lia. buffer_eq.
    + assert (getType T (PyLong Exact n) = T LONG_TYPE) as Hty
        by (rewrite getType_long; destruct (Z.ltb_spec n 0); [lia | reflexivity]).
      open_envelope LONG_TYPE Hser Hmax fuel.
      cbn in Hbody. inversion Hbody; subst body.
      unfold deserializeLong. rewrite readBuffer_app. cbn [bind].
      rewrite neq_tag by (try in_labels; discriminate).
      rewrite magnitude_value by lia. cbn [norm].
      replace (Z.abs n) with n by lia. buffer_eq.
  - (* float *)
    open_envelope FLOAT_TYPE Hser Hmax fuel.
    cbn in Hbody. inversion Hbody; subst body.
    cbn [well_formed] in Hwf. apply Nat.eqb_eq in Hwf.
    unfold deserializeFloat.
    replace 8 with (len d) by (unfold len; rewrite Hwf; reflexivity).
    rewrite readBuffer_app. cbn [bind norm]. buffer_eq.
  - (* str *)
    assert (getType T (PyString cl s) = T BYTES_TYPE) as Hty
      by (destruct cl; now rewrite <- Hs).
    open_envelope BYTES_TYPE Hser Hmax fuel.
    cbn in Hbody. inversion Hbody; subst body.
    unfold deserializeBytes. rewrite readBuffer_app. cbn [bind norm]. buffer_eq.
  - (* unicode *)
    assert (getType T (PyUnicode cl s) = T UNICODE_TYPE) as Hty by now destruct cl.
    open_envelope UNICODE_TYPE Hser Hmax fuel.
    cbn in Hbody. inversion Hbody; subst body.
    cbn [well_formed] in Hwf.
    unfold deserializeUnicode. rewrite readBuffer_app. cbn [bind norm].
    rewrite Hwf. buffer_eq.
  - (* list *)
    open_envelope LIST_TYPE Hser Hmax fuel.
    cbn [serializeList] in Hbody.
    destruct (serializeItems (serialize T) xs) as [more|] eqn:Em;
      cbn [bind] in Hbody; [|discriminate].
    inversion Hbody; subst body; clear Hbody.
    pose proof (serializeItems_length T xs more Em).
    pose proof (len_nonneg xs). pose proof (encodeSize_length (len xs)).
    rewrite len_app in *.
    unfold deserializeList. rewrite <- app_assoc.
    rewrite decodeSize_encodeSize by lia. cbn [bind].
    rewrite (items_decode_back T tv xs IH more Hwf Em) by lia.
    cbn [bind norm]. buffer_eq.
  - (* tuple *)
    open_envelope TUPLE_TYPE Hser Hmax fuel.
    cbn [serializeTuple] in Hbody.
    destruct (serializeItems (serialize T) xs) as [more|] eqn:Em;
      cbn [bind] in Hbody; [|discriminate].
    inversion Hbody; subst body; clear Hbody.
    pose proof (serializeItems_length T xs more Em).
    pose proof (len_nonneg xs). pose proof (encodeSize_length (len xs)).
    rewrite len_app in *.
    unfold deserializeTuple. rewrite <- app_assoc.
    rewrite decodeSize_encodeSize by lia. cbn [bind].
    rewrite (items_decode_back T tv xs IH more Hwf Em) by lia.
    cbn [bind norm]. buffer_eq.
  - (* dict *)
    open_envelope DICT_TYPE Hser Hmax fuel.
    cbn [serializeDict] in Hbody.
    destruct (serializePairs (serialize T) es) as [more|] eqn:Em;
      cbn [bind] in Hbody; [|discriminate].
    inversion Hbody; subst body; clear Hbody.
    pose proof (serializePairs_length T es more Em).
    pose proof (len_nonneg es). pose proof (encodeSize_length (len es)).
    rewrite len_app in *.
    cbn [well_formed] in Hwf. apply andb_true_iff in Hwf as [Hwf Hkeys].
    unfold deserializeDict. rewrite <- app_assoc.
    rewrite decodeSize_encodeSize by lia. cbn [bind].
    rewrite (pairs_decode_back T tv es IH more Hwf Em) by lia.
    cbn [bind norm].
    rewrite PyDict_SetItem_rebuild.
    + cbn [app]. buffer_eq.
    + cbn [app]. rewrite map_map. cbn [fst].
      now apply distinct_objects_NoDup.
  - (* set *)
    open_envelope SET_TYPE Hser Hmax fuel.
    cbn [serializeSet] in Hbody.
    destruct (serializeItems (serialize T) xs) as [more|] eqn:Em;
      cbn [bind] in Hbody; [|discriminate].
    inversion Hbody; subst body; clear Hbody.
    pose proof (serializeItems_length T xs more Em).
    pose proof (len_nonneg xs). pose proof (encodeSize_length (len xs)).
    rewrite len_app in *.
    cbn [well_formed] in Hwf. apply andb_true_iff in Hwf as [Hwf Hnd].
    unfold deserializeSet. rewrite <- app_assoc.
    rewrite decodeSize_encodeSize by lia. cbn [bind].
    rewrite (items_decode_back T tv xs IH more Hwf Em) by lia.
    cbn [bind norm].
    rewrite PySet_Add_rebuild by (now apply distinct_objects_NoDup).
    rewrite neq_tag by (try in_labels; discriminate). cbn [app]. buffer_eq.
  - (* frozenset *)
    open_envelope FROZEN_SET_TYPE Hser Hmax fuel.
    cbn [serializeSet] in Hbody.
    destruct (serializeItems (serialize T) xs) as [more|] eqn:Em;
      cbn [bind] in Hbody; [|discriminate].
    inversion Hbody; subst body; clear Hbody.
    pose proof (serializeItems_length T xs more Em).
    pose proof (len_nonneg xs). pose proof (encodeSize_length (len xs)).
    rewrite len_app in *.
    cbn [well_formed] in Hwf. apply andb_true_iff in Hwf as [Hwf Hnd].
    unfold deserializeSet. rewrite <- app_assoc.
    rewrite decodeSize_encodeSize by lia. cbn [bind].
    rewrite (items_decode_back T tv xs IH more Hwf Em) by lia.
    cbn [bind norm].
    rewrite PySet_Add_rebuild by (now apply distinct_objects_NoDup).
    rewrite Z.eqb_refl. cbn [app]. buffer_eq.
  - (* None *)
    open_envelope NONE_TYPE Hser Hmax fuel.
    cbn in Hbody. inversion Hbody; subst body.
    cbn [norm]. unfold deserializeNone. buffer_eq.
    cbn [app]. f_equal. change (len (@nil Z)) with 0. lia.
Qed.

End RoundTripAll.

(** ** The fuel is never exhausted *)

Lemma advances_bind {A B} (k j : nat) (buf : UserBuffer)
    (r : res (A * UserBuffer)) (g : A * UserBuffer -> res (B * UserBuffer)) :
  advances k buf r ->
  (forall a buf', r = Ok (a, buf') -> advances j buf' (g (a, buf'))) ->
  advances (k + j) buf (bind r g).
Proof.
  destruct r as [[a buf']|e]; cbn [advances bind]; [|auto].
  intros Hk Hg. specialize (Hg a buf' eq_refl).
  destruct (g (a, buf')) as [[b buf'']|e]; cbn [advances] in *; [lia | exact Hg].
Qed.

Lemma advances_weaken {A} (k j : nat) (buf : UserBuffer) (r : res (A * UserBuffer)) :
  (j <= k)%nat -> advances k buf r -> advances j buf r.
Proof. destruct r as [[a buf']|e]; cbn [advances]; [lia | auto]. Qed.

Lemma readByte_advances (buf : UserBuffer) : advances 1 buf (readByte buf).
Proof.
  unfold readByte. destruct buf as [c [|b rest]]; cbn; [discriminate | lia].
Qed.

Lemma readBuffer_advances (n : Z) (buf : UserBuffer) :
  advances 0 buf (readBuffer n buf).
Proof.
  unfold readBuffer. destruct (len (remaining buf) <? n); cbn; [discriminate|].
  rewrite length_skipn. lia.
Qed.

Lemma decodeSize_advances (buf : UserBuffer) : advances 1 buf (decodeSize buf).
Proof.
  unfold decodeSize.
  apply (advances_bind 1 0); [apply readByte_advances|].
  intros b buf1 _.
  destruct (Z.testbit b 7); [cbn; lia|].
  apply (advances_bind 0 0); [apply readBuffer_advances|].
  intros bs buf2 _. cbn. lia.
Qed.

Lemma parseHeaders_advances (buf : UserBuffer) : advances 2 buf (parseHeaders buf).
Proof.
  unfold parseHeaders.
  apply (advances_bind 1 1); [apply readByte_advances|].
  intros t buf1 _.
  apply (advances_bind 1 0); [apply decodeSize_advances|].
  intros s buf2 _.
  destruct (len (remaining buf2) <? s); cbn; [discriminate | lia].
Qed.

Section Progress.
Variable T : TagTable.
Variable tv : list Z -> bool.
Variable dec : UserBuffer -> res (PyObject * UserBuffer).

Lemma deserializeItems_advances (lf : nat) (n : Z) (buf : UserBuffer) :
  (forall b, (List.length (remaining b) <= List.length (remaining buf))%nat ->
             advances 1 b (dec b)) ->
  (List.length (remaining buf) < lf)%nat ->
  advances 0 buf (deserializeItems dec lf n buf).
Proof.
  revert n buf. induction lf as [|lf IH]; intros n buf Hdec Hlf; [lia|].
  rewrite deserializeItems_unfold. destruct (n <=? 0); [cbn; lia|].
  apply (advances_bind 0 0); [apply (advances_weaken 1); [lia | now apply Hdec]|].
  intros x buf1 E. pose proof (Hdec buf (le_n _)) as H1. rewrite E in H1.
  cbn [advances] in H1.
  apply (advances_bind 0 0).
  - apply IH; [|lia]. intros b Hb. apply Hdec. lia.
  - intros xs buf2 _. cbn. lia.
Qed.

Lemma deserializePairs_advances (lf : nat) (n : Z) (buf : UserBuffer) :
  (forall b, (List.length (remaining b) <= List.length (remaining buf))%nat ->
             advances 1 b (dec b)) ->
  (List.length (remaining buf) < lf)%nat ->
  advances 0 buf (deserializePairs dec lf n buf).
Proof.
  revert n buf. induction lf as [|lf IH]; intros n buf Hdec Hlf; [lia|].
  rewrite deserializePairs_unfold. destruct (n <=? 0); [cbn; lia|].
  apply (advances_bind 0 0); [apply (advances_weaken 1); [lia | now apply Hdec]|].
  intros k buf1 E. pose proof (Hdec buf (le_n _)) as H1. rewrite E in H1.
  cbn [advances] in H1.
  apply (advances_bind 0 0);
    [apply (advances_weaken 1); [lia | apply Hdec; lia]|].
  intros x buf2 E2. pose proof (Hdec buf1 ltac:(lia)) as H2. rewrite E2 in H2.
  cbn [advances] in H2.
  apply (advances_bind 0 0).
  - apply IH; [|lia]. intros b Hb. apply Hdec. lia.
  - intros xs buf3 _. cbn. lia.
Qed.
End Progress.

Lemma deserialize_fuel_advances (T : TagTable) (tv : list Z -> bool) (fuel : nat) :
  forall buf, (List.length (remaining buf) < fuel)%nat ->
    advances 1 buf (deserialize_fuel T tv fuel buf).
Proof.
  induction fuel as [|f IH]; intros buf Hf; [lia|].
  rewrite deserialize_fuel_S. cbv zeta.
  apply (advances_bind 1 0);
    [apply (advances_weaken 2); [lia | apply parseHeaders_advances]|].
  intros [type size] buf' E.
  pose proof (parseHeaders_advances buf) as Hp. rewrite E in Hp. cbn [advances] in Hp.
  assert (forall b, (List.length (remaining b) <= List.length (remaining buf'))%nat ->
                    advances 1 b (deserialize_fuel T tv f b)) as Hdec
    by (intros b Hb; apply IH; lia).
  assert (forall b, (List.length (remaining b) < List.length (remaining buf'))%nat ->
           forall b', (List.length (remaining b') <= List.length (remaining b))%nat ->
                    advances 1 b' (deserialize_fuel T tv f b')) as Hdec'
    by (intros b Hb b' Hb'; apply IH; lia).
  destruct (switch_label T type) as [[]|];
    try (cbn; first [lia | discriminate]).
  - unfold deserializeInt. apply (advances_bind 0 0); [apply readBuffer_advances|].
    intros bs b1 _. cbn. lia.
  - unfold deserializeInt. apply (advances_bind 0 0); [apply readBuffer_advances|].
    intros bs b1 _. cbn. lia.
  - unfold deserializeLong. apply (advances_bind 0 0); [apply readBuffer_advances|].
    intros bs b1 _. cbn. lia.
  - unfold deserializeLong. apply (advances_bind 0 0); [apply readBuffer_advances|].
    intros bs b1 _. cbn. lia.
  - unfold deserializeFloat. apply (advances_bind 0 0); [apply readBuffer_advances|].
    intros bs b1 _. cbn. lia.
  - unfold deserializeBytes. apply (advances_bind 0 0); [apply readBuffer_advances|].
    intros bs b1 _. cbn. lia.
  - unfold deserializeUnicode. apply (advances_bind 0 0); [apply readBuffer_advances|].
    intros bs b1 _. destruct (tv bs); cbn; [lia | discriminate].
  - unfold deserializeList.
    apply (advances_bind 0 0);
      [apply (advances_weaken 1); [lia | apply decodeSize_advances]|].
    intros n b1 E1. pose proof (decodeSize_advances buf') as H1. rewrite E1 in H1.
    cbn [advances] in H1.
    apply (advances_bind 0 0).
    + apply deserializeItems_advances; [|lia]. apply Hdec'. lia.
    + intros xs b2 _. cbn. lia.
  - unfold deserializeTuple.
    apply (advances_bind 0 0);
      [apply (advances_weaken 1); [lia | apply decodeSize_advances]|].
    intros n b1 E1. pose proof (decodeSize_advances buf') as H1. rewrite E1 in H1.
    cbn [advances] in H1.
    apply (advances_bind 0 0).
    + apply deserializeItems_advances; [|lia]. apply Hdec'. lia.
    + intros xs b2 _. cbn. lia.
  - unfold deserializeDict.
    apply (advances_bind 0 0);
      [apply (advances_weaken 1); [lia | apply decodeSize_advances]|].
    intros n b1 E1. pose proof (decodeSize_advances buf') as H1. rewrite E1 in H1.
    cbn [advances] in H1.
    apply (advances_bind 0 0).
    + apply deserializePairs_advances; [|lia]. apply Hdec'. lia.
    + intros xs b2 _. cbn. lia.
  - unfold deserializeSet.
    apply (advances_bind 0 0);
      [apply (advances_weaken 1); [lia | apply decodeSize_advances]|].
    intros n b1 E1. pose proof (decodeSize_advances buf') as H1. rewrite E1 in H1.
    cbn [advances] in H1.
    apply (advances_bind 0 0).
    + apply deserializeItems_advances; [|lia]. apply Hdec'. lia.
    + intros xs b2 _. cbn. lia.
  - unfold deserializeSet.
    apply (advances_bind 0 0);
      [apply (advances_weaken 1); [lia | apply decodeSize_advances]|].
    intros n b1 E1. pose proof (decodeSize_advances buf') as H1. rewrite E1 in H1.
    cbn [advances] in H1.
    apply (advances_bind 0 0).
    + apply deserializeItems_advances; [|lia]. apply Hdec'. lia.
    + intros xs b2 _. cbn. lia.
Qed.

(** [deserialize] never fails for want of fuel, and a successful call has
    moved the cursor. *)
Theorem deserialize_total (T : TagTable) (tv : list Z -> bool) (buf : UserBuffer) :
  advances 1 buf (deserialize T tv buf).
Proof. unfold deserialize. apply deserialize_fuel_advances. lia. Qed.

(** ** The README's examples *)

Example readme_int :
  serialize kimchi_tags (PyInt Exact 123) = Ok [1; 129; 123].
Proof. reflexivity. Qed.

Example readme_str :
  serialize kimchi_tags (PyString Exact [49; 50; 51]) = Ok [5; 131; 49; 50; 51].
Proof. reflexivity. Qed.

Example readme_nested :
  serialize kimchi_tags readme_list
  = Ok [8; 150; 132; 1; 129; 1; 1; 129; 2; 1; 129; 3;
        9; 138; 131; 5; 129; 52; 5; 129; 53; 5; 129; 54].
Proof. reflexivity. Qed.

(** The boundary sizes of the VarSize. *)
Example encodeSize_127 : encodeSize 127 = [255].
Proof. reflexivity. Qed.

Example encodeSize_128 : encodeSize 128 = [1; 128].
Proof. reflexivity. Qed.

Example encodeSize_65535 : encodeSize 65535 = [2; 255; 255].
Proof. reflexivity. Qed.

Example encodeSize_2_32 : encodeSize (2 ^ 32) = [5; 1; 0; 0; 0; 0].
Proof. reflexivity. Qed.

(** An object of a type outside the codec's kinds has no tag. *)
Lemma getType_instance (T : TagTable) (n : string) : getType T (PyInstance n) = 0.
Proof. reflexivity. Qed.

(** ** Nested values *)




Lemma nest_norm (n : nat) : norm (nest n) = nest n.
Proof. induction n as [|n IH]; cbn; [reflexivity | now rewrite IH]. Qed.

(** ** Round trip of a whole buffer *)

Lemma decode_back_at (T : TagTable) (tv : list Z -> bool) (v : PyObject)
    (bs rest : list Z) (c : Z) :
  tags_wf T = true -> well_formed tv v = true ->
  serialize T v = Ok bs -> len bs <= ULLONG_MAX ->
  deserialize T tv (mkBuffer c (bs ++ rest))
  = Ok (norm v, mkBuffer (c + len bs) rest).
Proof.
  intros HT Hwf Hser Hmax. unfold deserialize.
  apply (decodes_back_all T tv HT v bs Hwf Hser Hmax).
  cbn [remaining]. rewrite length_app. lia.
Qed.

Lemma fits_bound (T : TagTable) (v : PyObject) (bs : list Z) :
  fits T v = true -> serialize T v = Ok bs -> len bs <= ULLONG_MAX.
Proof. unfold fits. intros H E. rewrite E in H. lia. Qed.

Lemma supported_serialize (T : TagTable) (v : PyObject) :
  tags_wf T = true -> supported v = true -> exists bs, serialize T v = Ok bs.
Proof.
  intros HT Hs. pose proof (serialize_supported T v HT) as H.
  now rewrite Hs in H.
Qed.

Lemma parseHeaders_tag (buf buf' : UserBuffer) (type size : Z) :
  parseHeaders buf = Ok (type, size, buf') -> hd_error (remaining buf) = Some type.
Proof.
  unfold parseHeaders, readByte.
  destruct (remaining buf) as [|b rest]; cbn [bind]; [discriminate|].
  destruct (decodeSize _) as [[s b2]|e]; cbn [bind]; [|discriminate].
  destruct (len (remaining b2) <? s); [discriminate|].
  intro H. inversion H. reflexivity.
Qed.



(** * The claims *)

(** C1. At the booleans the round trip fails: [serialize] produces no
    bytes for [True], for [False] or for a container holding one (tag 0
    from [getType], the defect of C2), although the boolean envelopes are
    part of the format and [deserialize] returns [True] and [False] for
    them; so there is nothing to decode back. *)
Theorem roundtrip_breaks_on_boolean (T : TagTable) (tv : list Z -> bool) :
  tags_wf T = true ->
  serialize T Py_True = Err (TypeError_UnknownObjectType "bool") /\
  serialize T Py_False = Err (TypeError_UnknownObjectType "bool") /\
  serialize T (PyList Exact [Py_True]) = Err (TypeError_UnknownObjectType "bool") /\
  deserialize T tv (newBuffer (T BOOL_TRUE_TYPE :: encodeSize 0))
  = Ok (Py_True, mkBuffer 2 []) /\
  deserialize T tv (newBuffer (T BOOL_FALSE_TYPE :: encodeSize 0))
  = Ok (Py_False, mkBuffer 2 []).
Proof.
  intro HT. split; [reflexivity|]. split; [reflexivity|]. split.
  - rewrite serialize_unfold. change (getType T (PyList Exact [Py_True])) with (T LIST_TYPE).
    cbv zeta. rewrite tag_nonzero, switch_label_code by (auto; in_labels).
    reflexivity.
  - assert (0 <= len (@nil Z) <= ULLONG_MAX) as H0 by (unfold ULLONG_MAX; cbn; lia).
    split; unfold deserialize; rewrite deserialize_fuel_S; cbv zeta.
    + change (newBuffer (T BOOL_TRUE_TYPE :: encodeSize 0))
        with (mkBuffer 0 (T BOOL_TRUE_TYPE :: encodeSize (len (@nil Z)) ++ [] ++ [])).
      rewrite parseHeaders_envelope by exact H0. cbn [bind].
      rewrite switch_label_code by (auto; in_labels). unfold deserializeBool.
      now rewrite Z.eqb_refl.
    + change (newBuffer (T BOOL_FALSE_TYPE :: encodeSize 0))
        with (mkBuffer 0 (T BOOL_FALSE_TYPE :: encodeSize (len (@nil Z)) ++ [] ++ [])).
      rewrite parseHeaders_envelope by exact H0. cbn [bind].
      rewrite switch_label_code by (auto; in_labels). unfold deserializeBool.
      now rewrite (neq_tag T HT) by (try in_labels; discriminate).
Qed.

Lemma roundtrip_breaks_on_boolean_witness :
  tags_wf kimchi_tags = true /\
  serialize kimchi_tags Py_True = Err (TypeError_UnknownObjectType "bool") /\
  serialize kimchi_tags Py_False = Err (TypeError_UnknownObjectType "bool") /\
  serialize kimchi_tags (PyList Exact [Py_True])
  = Err (TypeError_UnknownObjectType "bool") /\
  deserialize kimchi_tags any_text (newBuffer (kimchi_tags BOOL_TRUE_TYPE :: encodeSize 0))
  = Ok (Py_True, mkBuffer 2 []) /\
  deserialize kimchi_tags any_text (newBuffer (kimchi_tags BOOL_FALSE_TYPE :: encodeSize 0))
  = Ok (Py_False, mkBuffer 2 []).
Proof.
  assert (tags_wf kimchi_tags = true) as H1 by reflexivity.
  split; [exact H1|].
  exact (roundtrip_breaks_on_boolean kimchi_tags any_text H1).
Defined.

(** C2. At the booleans the code departs from the claim: [getType] has no
    boolean case, so [True] and [False] (instances of [bool], a strict
    subclass of [int]) get tag 0 and [serialize] returns 1 with a
    [TypeError], its outputs untouched; no boolean-tagged envelope is
    produced. *)
Theorem getType_bool_unrecognised (T : TagTable) (a : OutArgs) :
  getType T Py_True = 0 /\ getType T Py_False = 0 /\
  serialize_out T Py_True a = (1, a, Some (TypeError_UnknownObjectType "bool")) /\
  serialize_out T Py_False a = (1, a, Some (TypeError_UnknownObjectType "bool")).
Proof. repeat split. Qed.




(** C4, as stated, fails: a buffer that holds an unknown tag byte and
    nothing else is rejected by [parseHeaders] with a buffer underrun, before
    the tag is looked at. *)
Lemma unknown_tag_truncated_header :
  unknown_tag kimchi_tags (newBuffer [255]) = true /\
  deserialize kimchi_tags any_text (newBuffer [255]) = Err BufferUnderrun /\
  forall type, deserialize kimchi_tags any_text (newBuffer [255])
               <> Err (TypeError_UnrecognizedTypeFlag type).
Proof. repeat split. intros type H. discriminate. Qed.

(** C4, amended.  A buffer whose first byte is none of the tag constants
    never yields a value: when its headers parse, [deserialize] fails with
    the unrecognized-type-flag [TypeError] for that byte; when they do not,
    it fails with the error of [parseHeaders]. *)
Theorem deserialize_unknown_tag (T : TagTable) (tv : list Z -> bool)
    (buf : UserBuffer) :
  unknown_tag T buf = true ->
  match parseHeaders buf with
  | Ok (type, _, _) =>
      hd_error (remaining buf) = Some type /\
      deserialize T tv buf = Err (TypeError_UnrecognizedTypeFlag type)
  | Err e => deserialize T tv buf = Err e
  end.
Proof.
  intro Hu. unfold deserialize. rewrite deserialize_fuel_S. cbv zeta.
  destruct (parseHeaders buf) as [[[type size] buf']|e] eqn:E; cbn [bind];
    [|reflexivity].
  pose proof (parseHeaders_tag buf buf' type size E) as Hhd.
  split; [exact Hhd|].
  unfold unknown_tag in Hu. destruct (remaining buf) as [|b rest]; [discriminate|].
  cbn in Hhd. inversion Hhd; subst b. apply negb_true_iff in Hu.
  now rewrite (switch_label_unknown T type Hu).
Qed.

Lemma deserialize_unknown_tag_witness :
  unknown_tag kimchi_tags (newBuffer [255; 128]) = true /\
  match parseHeaders (newBuffer [255; 128]) with
  | Ok (type, _, _) =>
      hd_error (remaining (newBuffer [255; 128])) = Some type /\
      deserialize kimchi_tags any_text (newBuffer [255; 128])
      = Err (TypeError_UnrecognizedTypeFlag type)
  | Err e => deserialize kimchi_tags any_text (newBuffer [255; 128]) = Err e
  end.
Proof.
  assert (unknown_tag kimchi_tags (newBuffer [255; 128]) = true) as H1 by reflexivity.
  split; [exact H1|].
  exact (deserialize_unknown_tag kimchi_tags any_text (newBuffer [255; 128]) H1).
Defined.

(** C5. A host value of a type [getType] does not know (tag 0), or whose
    tag is no case of the [switch], makes [serialize] return 1 with a
    [TypeError] raised, before any byte is written: the caller's output
    pointer and size are left as they were. *)
Theorem serialize_unsupported (T : TagTable) (object : PyObject) (a : OutArgs) :
  getType T object = 0 \/ switch_label T (getType T object) = None ->
  serialize_out T object a
  = (1, a,
     Some (if getType T object =? 0
           then TypeError_UnknownObjectType (tp_name object)
           else TypeError_Unserializable (tp_name object))).
Proof.
  intro H. unfold serialize_out. rewrite serialize_unfold. cbv zeta.
  destruct (Z.eqb_spec (getType T object) 0) as [E|E]; [reflexivity|].
  destruct H as [H|H]; [contradiction|]. rewrite H. reflexivity.
Qed.

Lemma serialize_unsupported_witness :
  (getType kimchi_tags (PyInstance "object") = 0 \/
   switch_label kimchi_tags (getType kimchi_tags (PyInstance "object")) = None) /\
  serialize_out kimchi_tags (PyInstance "object") (mkOut None 0)
  = (1, mkOut None 0,
     Some (if getType kimchi_tags (PyInstance "object") =? 0
           then TypeError_UnknownObjectType (tp_name (PyInstance "object"))
           else TypeError_Unserializable (tp_name (PyInstance "object")))).
Proof.
  assert (getType kimchi_tags (PyInstance "object") = 0 \/
          switch_label kimchi_tags (getType kimchi_tags (PyInstance "object")) = None)
    as H1 by (left; reflexivity).
  split; [exact H1|].
  exact (serialize_unsupported kimchi_tags (PyInstance "object") (mkOut None 0) H1).
Defined.

(** A value with an unsupported component inside a container fails in the
    same way. *)
Lemma serialize_unsupported_nested (T : TagTable) (v : PyObject) (a : OutArgs) :
  tags_wf T = true -> supported v = false ->
  exists n, serialize_out T v a = (1, a, Some (TypeError_UnknownObjectType n)).
Proof.
  intros HT Hs. pose proof (serialize_supported T v HT) as H. rewrite Hs in H.
  destruct H as [n E]. exists n. unfold serialize_out. now rewrite E.
Qed.

(** C6. VarSize: for a size [n] of the C size type, decoding the encoding of
    [n] yields [n] and consumes it all; for [n <= 127] the encoding is the
    one byte [0x80 | n], high bit set and low 7 bits [n]; for [n >= 128] the
    first byte has its high bit clear and its low 7 bits count the
    big-endian magnitude bytes that follow, whose value is [n]. *)
Theorem varsize_roundtrip (n : Z) :
  0 <= n <= ULLONG_MAX ->
  decodeSize (newBuffer (encodeSize n)) = Ok (n, mkBuffer (len (encodeSize n)) []) /\
  (n <= 127 ->
   encodeSize n = [Z.lor 128 n] /\
   Z.testbit (Z.lor 128 n) 7 = true /\ Z.land (Z.lor 128 n) 127 = n) /\
  (128 <= n ->
   exists k bs,
     encodeSize n = k :: bs /\ Z.testbit k 7 = false /\
     Z.land k 127 = len bs /\ 1 <= len bs /\ be_value bs = n).
Proof.
  intro Hn. split; [|split].
  - pose proof (decodeSize_encodeSize n 0 [] Hn) as H.
    rewrite app_nil_r in H. exact H.
  - intro Hs. unfold encodeSize. destruct (Z.leb_spec n 127); [|lia].
    split; [reflexivity|]. apply short_byte_bits. lia.
  - intro Hb. unfold encodeSize. destruct (Z.leb_spec n 127); [lia|].
    exists (Z.of_nat (byte_len n)), (be_bytes (byte_len n) n).
    pose proof (byte_len_ull n Hn). pose proof (byte_len_pos n ltac:(lia)).
    destruct (small_byte_bits (Z.of_nat (byte_len n)) ltac:(lia)) as [Hb7 Hl].
    assert (len (be_bytes (byte_len n) n) = Z.of_nat (byte_len n)) as Hlen
      by (unfold len; now rewrite be_bytes_length).
    rewrite Hlen. repeat split; try assumption; try lia.
    apply be_value_be_bytes. destruct (byte_len_bound n); lia.
Qed.

Lemma varsize_roundtrip_witness :
  0 <= 2 ^ 32 <= ULLONG_MAX /\
  decodeSize (newBuffer (encodeSize (2 ^ 32)))
  = Ok (2 ^ 32, mkBuffer (len (encodeSize (2 ^ 32))) []) /\
  (2 ^ 32 <= 127 ->
   encodeSize (2 ^ 32) = [Z.lor 128 (2 ^ 32)] /\
   Z.testbit (Z.lor 128 (2 ^ 32)) 7 = true /\ Z.land (Z.lor 128 (2 ^ 32)) 127 = 2 ^ 32) /\
  (128 <= 2 ^ 32 ->
   exists k bs,
     encodeSize (2 ^ 32) = k :: bs /\ Z.testbit k 7 = false /\
     Z.land k 127 = len bs /\ 1 <= len bs /\ be_value bs = 2 ^ 32).
Proof.
  assert (0 <= 2 ^ 32 <= ULLONG_MAX) as H1 by (unfold ULLONG_MAX; lia).
  split; [exact H1|].
  exact (varsize_roundtrip (2 ^ 32) H1).
Defined.

(** C7. With a boolean among the two values there is no concatenated
    buffer to decode: [serialize] fails on [True] and on [False] (the defect
    of C2), so the concatenation of the two envelopes is never formed,
    whichever of the two values the boolean is. *)
Theorem concatenation_breaks_on_boolean (T : TagTable) (b : PyObject) :
  (sa <- serialize T Py_True ;; sb <- serialize T b ;; Ok (sa ++ sb))
  = Err (TypeError_UnknownObjectType "bool") /\
  is_ok (sa <- serialize T b ;; sb <- serialize T Py_False ;; Ok (sa ++ sb)) = false.
Proof.
  split; [reflexivity|].
  destruct (serialize T b) as [sa|e]; reflexivity.
Qed.

(** C9. Zero is in the non-negative class: [getType] gives the int zero
    [INT_TYPE] and the long zero [LONG_TYPE]; the negative tags are chosen
    exactly when the machine value, respectively the [ob_size] field, is
    below zero, which for a long is when its value is. *)
Theorem getType_zero_nonnegative (T : TagTable) :
  getType T (PyInt Exact 0) = T INT_TYPE /\
  getType T (PyLong Exact 0) = T LONG_TYPE /\
  (forall v, getType T (PyInt Exact v)
             = if PyLong_AsLongLong (PyInt Exact v) <? 0
               then T NEG_INT_TYPE else T INT_TYPE) /\
  (forall v, getType T (PyLong Exact v)
             = if ob_size (PyLong Exact v) <? 0
               then T NEG_LONG_TYPE else T LONG_TYPE) /\
  (forall v, (ob_size (PyLong Exact v) <? 0) = (v <? 0)).
Proof.
  repeat split; try reflexivity. intro v. apply ob_size_sign.
Qed.

(** C10. Type detection is exact for numbers and containers: an instance of
    a strict subclass of int, long, float, list, tuple, dict, set or
    frozenset gets tag 0 and [serialize] fails on it; an instance of a
    subclass of [str] or [unicode] is accepted, with the tag of its base
    type. *)
Theorem getType_subclasses (T : TagTable) (v : PyObject) :
  tags_wf T = true ->
  (strict_subclass_of_exact_kind v = true ->
   getType T v = 0 /\
   serialize T v = Err (TypeError_UnknownObjectType (tp_name v))) /\
  (forall n s, v = PyString (Subclass n) s ->
   getType T v = T STRING_TYPE /\ getType T v = getType T (PyString Exact s) /\
   getType T v <> 0) /\
  (forall n s, v = PyUnicode (Subclass n) s ->
   getType T v = T UNICODE_TYPE /\ getType T v = getType T (PyUnicode Exact s) /\
   getType T v <> 0).
Proof.
  intro HT. split; [|split].
  - destruct v as [[|?] ?|[|?] ?|[|?] ?|? ?|? ?|[|?] ?|[|?] ?|[|?] ?|[|?] ?|[|?] ?| |?];
      cbn [strict_subclass_of_exact_kind]; try discriminate; intros _;
      split; reflexivity.
  - intros n s ->. split; [reflexivity|]. split; [reflexivity|].
    change (getType T (PyString (Subclass n) s)) with (T STRING_TYPE).
    rewrite (string_tag T HT).
    pose proof (tag_range T BYTES_TYPE HT ltac:(in_labels)). lia.
  - intros n s ->. split; [reflexivity|]. split; [reflexivity|].
    change (getType T (PyUnicode (Subclass n) s)) with (T UNICODE_TYPE).
    pose proof (tag_range T UNICODE_TYPE HT ltac:(in_labels)). lia.
Qed.

Lemma getType_subclasses_witness :
  tags_wf kimchi_tags = true /\
  (strict_subclass_of_exact_kind (PyList (Subclass "Stack") [Py_None]) = true ->
   getType kimchi_tags (PyList (Subclass "Stack") [Py_None]) = 0 /\
   serialize kimchi_tags (PyList (Subclass "Stack") [Py_None])
   = Err (TypeError_UnknownObjectType (tp_name (PyList (Subclass "Stack") [Py_None])))) /\
  (forall n s, PyList (Subclass "Stack") [Py_None] = PyString (Subclass n) s ->
   getType kimchi_tags (PyList (Subclass "Stack") [Py_None]) = kimchi_tags STRING_TYPE /\
   getType kimchi_tags (PyList (Subclass "Stack") [Py_None])
   = getType kimchi_tags (PyString Exact s) /\
   getType kimchi_tags (PyList (Subclass "Stack") [Py_None]) <> 0) /\
  (forall n s, PyList (Subclass "Stack") [Py_None] = PyUnicode (Subclass n) s ->
   getType kimchi_tags (PyList (Subclass "Stack") [Py_None]) = kimchi_tags UNICODE_TYPE /\
   getType kimchi_tags (PyList (Subclass "Stack") [Py_None])
   = getType kimchi_tags (PyUnicode Exact s) /\
   getType kimchi_tags (PyList (Subclass "Stack") [Py_None]) <> 0).
Proof.
  assert (tags_wf kimchi_tags = true) as H1 by reflexivity.
  split; [exact H1|].
  exact (getType_subclasses kimchi_tags (PyList (Subclass "Stack") [Py_None]) H1).
Defined.

(** * Further properties of the three functions *)

(** ** getType *)

(** The label under which [getType] files an object it recognises, with the
    layout and the sign class the label stands for. *)
Lemma getType_label_kind (T : TagTable) (v : PyObject) :
  tags_wf T = true -> getType T v <> 0 ->
  exists t,
    In t case_labels /\ getType T v = T t /\
    t <> BOOL_TRUE_TYPE /\ t <> BOOL_FALSE_TYPE /\
    tag_layout t = layout v /\
    is_negative v = match t with NEG_INT_TYPE | NEG_LONG_TYPE => true | _ => false end.
Proof.
  intros HT Hnz. pose proof (string_tag T HT) as Hs.
  destruct v as [[|?] n|[|?] n|[|?] ?|? ?|? ?|[|?] ?|[|?] ?|[|?] ?|[|?] ?|[|?] ?| |?];
    try (exfalso; apply Hnz; reflexivity).
  - rewrite getType_int. cbn [is_negative layout].
    destruct (n <? 0); [exists NEG_INT_TYPE | exists INT_TYPE];
      (split; [in_labels | split; [reflexivity|]]);
      repeat split; first [discriminate | reflexivity].
  - rewrite getType_long. cbn [is_negative layout].
    destruct (n <? 0); [exists NEG_LONG_TYPE | exists LONG_TYPE];
      (split; [in_labels | split; [reflexivity|]]);
      repeat split; first [discriminate | reflexivity].
  - exists FLOAT_TYPE. split; [in_labels | split; [reflexivity|]].
    repeat split; first [discriminate | reflexivity].
  - exists BYTES_TYPE. split; [in_labels | split; [destruct c; exact Hs|]].
    repeat split; first [discriminate | reflexivity].
  - exists UNICODE_TYPE. split; [in_labels | split; [destruct c; reflexivity|]].
    repeat split; first [discriminate | reflexivity].
  - exists LIST_TYPE. split; [in_labels | split; [reflexivity|]].
    repeat split; first [discriminate | reflexivity].
  - exists TUPLE_TYPE. split; [in_labels | split; [reflexivity|]].
    repeat split; first [discriminate | reflexivity].
  - exists DICT_TYPE. split; [in_labels | split; [reflexivity|]].
    repeat split; first [discriminate | reflexivity].
  - exists SET_TYPE. split; [in_labels | split; [reflexivity|]].
    repeat split; first [discriminate | reflexivity].
  - exists FROZEN_SET_TYPE. split; [in_labels | split; [reflexivity|]].
    repeat split; first [discriminate | reflexivity].
  - exists NONE_TYPE. split; [in_labels | split; [reflexivity|]].
    repeat split; first [discriminate | reflexivity].
Qed.

(** X1. Every nonzero tag [getType] returns is a case label of the [switch]
    of [serialize], and never one of the two boolean labels: neither the
    [default] branch nor the boolean branch is reached from [getType]. *)
Theorem getType_reaches_switch (T : TagTable) (v : PyObject) :
  tags_wf T = true -> getType T v <> 0 ->
  exists t,
    switch_label T (getType T v) = Some t /\
    t <> BOOL_TRUE_TYPE /\ t <> BOOL_FALSE_TYPE /\
    getType T v <> T BOOL_TRUE_TYPE /\ getType T v <> T BOOL_FALSE_TYPE.
Proof.
  intros HT Hnz.
  destruct (getType_label_kind T v HT Hnz) as (t & Hin & E & Hb1 & Hb2 & _).
  exists t. rewrite E. split; [now apply switch_label_code|].
  repeat split; try assumption; intro H;
    apply (tag_inj T) in H; try assumption; try in_labels; contradiction.
Qed.

Lemma getType_reaches_switch_witness :
  tags_wf kimchi_tags = true /\ getType kimchi_tags sample_value <> 0 /\
  exists t,
    switch_label kimchi_tags (getType kimchi_tags sample_value) = Some t /\
    t <> BOOL_TRUE_TYPE /\ t <> BOOL_FALSE_TYPE /\
    getType kimchi_tags sample_value <> kimchi_tags BOOL_TRUE_TYPE /\
    getType kimchi_tags sample_value <> kimchi_tags BOOL_FALSE_TYPE.
Proof.
  assert (tags_wf kimchi_tags = true) as H1 by reflexivity.
  assert (getType kimchi_tags sample_value <> 0) as H2 by discriminate.
  split; [exact H1|]. split; [exact H2|].
  exact (getType_reaches_switch kimchi_tags sample_value H1 H2).
Defined.

(** X2. The tag determines the kind: two objects to which [getType] gives
    the same nonzero tag have the same layout and, for numbers, the same
    sign class. *)
Theorem getType_tag_determines_kind (T : TagTable) (a b : PyObject) :
  tags_wf T = true -> getType T a <> 0 -> getType T a = getType T b ->
  layout a = layout b /\ is_negative a = is_negative b.
Proof.
  intros HT Ha E.
  assert (getType T b <> 0) as Hb by (rewrite <- E; exact Ha).
  destruct (getType_label_kind T a HT Ha) as (t & Ht & Et & _ & _ & Lt & Nt).
  destruct (getType_label_kind T b HT Hb) as (u & Hu & Eu & _ & _ & Lu & Nu).
  assert (t = u) as -> by (apply (tag_inj T); auto; congruence).
  split; congruence.
Qed.

Lemma getType_tag_determines_kind_witness :
  tags_wf kimchi_tags = true /\
  getType kimchi_tags (PyLong Exact (-5)) <> 0 /\
  getType kimchi_tags (PyLong Exact (-5)) = getType kimchi_tags (PyLong Exact (- 2 ^ 80)) /\
  layout (PyLong Exact (-5)) = layout (PyLong Exact (- 2 ^ 80)) /\
  is_negative (PyLong Exact (-5)) = is_negative (PyLong Exact (- 2 ^ 80)).
Proof.
  assert (tags_wf kimchi_tags = true) as H1 by reflexivity.
  assert (getType kimchi_tags (PyLong Exact (-5)) <> 0) as H2 by discriminate.
  assert (getType kimchi_tags (PyLong Exact (-5))
          = getType kimchi_tags (PyLong Exact (- 2 ^ 80))) as H3 by reflexivity.
  split; [exact H1|]. split; [exact H2|]. split; [exact H3|].
  exact (getType_tag_determines_kind kimchi_tags _ _ H1 H2 H3).
Defined.

(** X3. [getType] returns 0 for exactly two sorts of objects: the instances
    of strict subclasses of the types it checks exactly, and the objects of
    any other type. *)
Theorem getType_zero_iff (T : TagTable) (v : PyObject) :
  tags_wf T = true ->
  (getType T v = 0 <->
   strict_subclass_of_exact_kind v = true \/ exists n, v = PyInstance n).
Proof.
  intro HT. pose proof (string_tag T HT) as Hs.
  assert (forall t, In t case_labels -> T t <> 0) as Hnz
    by (intros t Ht; pose proof (tag_range T t HT Ht); lia).
  split.
  - destruct v as [[|?] n|[|?] n|[|?] ?|c s|c s|[|?] ?|[|?] ?|[|?] ?|[|?] ?|[|?] ?| |?];
      try (intros _; left; reflexivity); try (intros _; right; eexists; reflexivity);
      intro E; exfalso.
    + rewrite getType_int in E. destruct (n <? 0); revert E; apply Hnz; in_labels.
    + rewrite getType_long in E. destruct (n <? 0); revert E; apply Hnz; in_labels.
    + revert E. apply (Hnz FLOAT_TYPE). in_labels.
    + assert (getType T (PyString c s) = T BYTES_TYPE) as E' by (destruct c; exact Hs).
      rewrite E' in E. revert E. apply Hnz. in_labels.
    + assert (getType T (PyUnicode c s) = T UNICODE_TYPE) as E' by (destruct c; reflexivity).
      rewrite E' in E. revert E. apply Hnz. in_labels.
    + revert E. apply (Hnz LIST_TYPE). in_labels.
    + revert E. apply (Hnz TUPLE_TYPE). in_labels.
    + revert E. apply (Hnz DICT_TYPE). in_labels.
    + revert E. apply (Hnz SET_TYPE). in_labels.
    + revert E. apply (Hnz FROZEN_SET_TYPE). in_labels.
    + revert E. apply (Hnz NONE_TYPE). in_labels.
  - intros [H|[n ->]]; [|reflexivity].
    destruct v as [[|?] ?|[|?] ?|[|?] ?|? ?|? ?|[|?] ?|[|?] ?|[|?] ?|[|?] ?|[|?] ?| |?];
      cbn in H; try discriminate; reflexivity.
Qed.

Lemma getType_zero_iff_witness :
  tags_wf kimchi_tags = true /\
  (getType kimchi_tags Py_True = 0 <->
   strict_subclass_of_exact_kind Py_True = true \/ exists n, Py_True = PyInstance n).
Proof.
  assert (tags_wf kimchi_tags = true) as H1 by reflexivity.
  split; [exact H1|].
  exact (getType_zero_iff kimchi_tags Py_True H1).
Defined.

(** ** serialize *)

(** X4. [serialize] succeeds on exactly the values whose every component
    [getType] recognises, and each of its failures is the [TypeError] of
    [getType]: the "unserializable type" error of the [default] branch is
    never raised. *)
Theorem serialize_succeeds_iff_supported (T : TagTable) (v : PyObject) :
  tags_wf T = true ->
  is_ok (serialize T v) = supported v /\
  fails_with (fun e => exists n, e = TypeError_UnknownObjectType n) (serialize T v).
Proof.
  intro HT. pose proof (serialize_supported T v HT) as H.
  destruct (supported v).
  - destruct H as [bs ->]. split; [reflexivity | exact I].
  - destruct H as [n ->]. split; [reflexivity | now exists n].
Qed.

Lemma serialize_succeeds_iff_supported_witness :
  tags_wf kimchi_tags = true /\
  is_ok (serialize kimchi_tags (PyTuple Exact [Py_None; Py_True]))
  = supported (PyTuple Exact [Py_None; Py_True]) /\
  fails_with (fun e => exists n, e = TypeError_UnknownObjectType n)
             (serialize kimchi_tags (PyTuple Exact [Py_None; Py_True])).
Proof.
  assert (tags_wf kimchi_tags = true) as H1 by reflexivity.
  split; [exact H1|].
  exact (serialize_succeeds_iff_supported kimchi_tags
           (PyTuple Exact [Py_None; Py_True]) H1).
Defined.

(** X5. What a call of [serialize] leaves behind.  It returns 0 or 1.  On 0
    no exception is set and [*out] is a block of [*outSize + 1] bytes that
    starts with the tag [getType] gave the object and ends with a NUL that
    [*outSize] does not count; [*outSize] is at least 2.  On 1 an exception
    is set and [*out] and [*outSize] are as before the call. *)
Theorem serialize_out_block (T : TagTable) (v : PyObject) (a : OutArgs) :
  let '(ret, a', e) := serialize_out T v a in
  (ret = 0 /\ e = None /\ 2 <= outSize a' /\
   exists block,
     out a' = Some block /\ len block = outSize a' + 1 /\
     hd_error block = Some (getType T v) /\ last block 1 = 0) \/
  (ret = 1 /\ e <> None /\ a' = a).
Proof.
  unfold serialize_out. destruct (serialize T v) as [bs|e] eqn:E.
  - left. split; [reflexivity|]. split; [reflexivity|].
    cbn [out outSize]. split; [exact (serialize_length T v bs E)|].
    exists (bs ++ [0]). split; [reflexivity|]. split; [rewrite len_app; reflexivity|].
    split; [|apply last_last].
    destruct (serialize_envelope T v bs E) as [body ->]. reflexivity.
  - right. repeat split. discriminate.
Qed.

(** X6. The subclass of a string is lost on the way: an instance of a
    subclass of [str] is serialized to the bytes of the plain [str] with the
    same contents, and these decode to that plain [str]. *)
Theorem str_subclass_decodes_to_str (T : TagTable) (tv : list Z -> bool)
    (n : string) (s : list Z) :
  tags_wf T = true -> fits T (PyString (Subclass n) s) = true ->
  exists bs,
    serialize T (PyString (Subclass n) s) = Ok bs /\
    serialize T (PyString Exact s) = Ok bs /\
    deserialize T tv (newBuffer bs) = Ok (PyString Exact s, mkBuffer (len bs) []).
Proof.
  intros HT Hfit.
  destruct (supported_serialize T (PyString (Subclass n) s) HT eq_refl) as [bs E].
  exists bs. split; [exact E|]. split.
  - rewrite <- E. rewrite !serialize_unfold.
    change (getType T (PyString (Subclass n) s)) with (T STRING_TYPE).
    change (getType T (PyString Exact s)) with (T STRING_TYPE).
    cbv zeta. rewrite (string_tag T HT).
    rewrite tag_nonzero, switch_label_code by (auto; in_labels). reflexivity.
  - pose proof (decode_back_at T tv (PyString (Subclass n) s) bs [] 0 HT eq_refl E
                  (fits_bound T _ bs Hfit E)) as H.
    rewrite app_nil_r in H. exact H.
Qed.

Lemma str_subclass_decodes_to_str_witness :
  tags_wf kimchi_tags = true /\
  fits kimchi_tags (PyString (Subclass "Path") [47; 116; 109; 112]) = true /\
  exists bs,
    serialize kimchi_tags (PyString (Subclass "Path") [47; 116; 109; 112]) = Ok bs /\
    serialize kimchi_tags (PyString Exact [47; 116; 109; 112]) = Ok bs /\
    deserialize kimchi_tags any_text (newBuffer bs)
    = Ok (PyString Exact [47; 116; 109; 112], mkBuffer (len bs) []).
Proof.
  assert (tags_wf kimchi_tags = true) as H1 by reflexivity.
  assert (fits kimchi_tags (PyString (Subclass "Path") [47; 116; 109; 112]) = true)
    as H2 by reflexivity.
  split; [exact H1|]. split; [exact H2|].
  exact (str_subclass_decodes_to_str kimchi_tags any_text "Path" [47; 116; 109; 112]
           H1 H2).
Defined.

(** ** deserialize *)

Lemma parseHeaders_sized (type c s : Z) (tail : list Z) :
  0 <= s <= ULLONG_MAX -> s <= len tail ->
  parseHeaders (mkBuffer c (type :: encodeSize s ++ tail))
  = Ok (type, s, mkBuffer (c + 1 + len (encodeSize s)) tail).
Proof.
  intros Hs Ht. unfold parseHeaders. cbn [readByte remaining consumed bind].
  rewrite decodeSize_encodeSize by exact Hs. cbn [bind remaining].
  destruct (Z.ltb_spec (len tail) s); [lia | reflexivity].
Qed.

(** X7. A boolean or [None] envelope is its headers: [deserializeBool] and
    [deserializeNone] are given neither the buffer nor the size, so a body
    the header declares is not checked to be empty and is not consumed; the
    cursor stays in front of it. *)
Theorem header_only_envelopes (T : TagTable) (tv : list Z -> bool) (t : Tag)
    (c : Z) (body rest : list Z) :
  tags_wf T = true -> In t [BOOL_TRUE_TYPE; BOOL_FALSE_TYPE; NONE_TYPE] ->
  len body <= ULLONG_MAX ->
  deserialize T tv (mkBuffer c (T t :: encodeSize (len body) ++ body ++ rest))
  = Ok (match t with
        | BOOL_TRUE_TYPE => Py_True
        | BOOL_FALSE_TYPE => Py_False
        | _ => Py_None
        end,
        mkBuffer (c + 1 + len (encodeSize (len body))) (body ++ rest)).
Proof.
  intros HT Hin Hmax. pose proof (len_nonneg body).
  unfold deserialize. rewrite deserialize_fuel_S. cbv zeta.
  rewrite parseHeaders_envelope by lia. cbn [bind].
  destruct Hin as [<-|[<-|[<-|[]]]];
    rewrite switch_label_code by (auto; in_labels); unfold deserializeBool.
  - now rewrite Z.eqb_refl.
  - now rewrite (neq_tag T HT) by (try in_labels; discriminate).
  - reflexivity.
Qed.

Lemma header_only_envelopes_witness :
  tags_wf kimchi_tags = true /\
  In NONE_TYPE [BOOL_TRUE_TYPE; BOOL_FALSE_TYPE; NONE_TYPE] /\
  len [7; 7; 7] <= ULLONG_MAX /\
  deserialize kimchi_tags any_text
    (mkBuffer 0 (kimchi_tags NONE_TYPE :: encodeSize (len [7; 7; 7]) ++ [7; 7; 7] ++ [1]))
  = Ok (Py_None, mkBuffer (0 + 1 + len (encodeSize (len [7; 7; 7]))) ([7; 7; 7] ++ [1])).
Proof.
  assert (tags_wf kimchi_tags = true) as H1 by reflexivity.
  assert (In NONE_TYPE [BOOL_TRUE_TYPE; BOOL_FALSE_TYPE; NONE_TYPE]) as H2
    by (right; right; left; reflexivity).
  assert (len [7; 7; 7] <= ULLONG_MAX) as H3 by (vm_compute; discriminate).
  split; [exact H1|]. split; [exact H2|]. split; [exact H3|].
  exact (header_only_envelopes kimchi_tags any_text NONE_TYPE 0 [7; 7; 7] [1] H1 H2 H3).
Defined.

(** X8. What [deserialize] accepts, [serialize] may refuse: a boolean
    envelope decodes to [True] or [False], and [serialize] fails on the value
    decoded, with the unknown-object-type [TypeError]. *)
Theorem decoded_boolean_not_serializable (T : TagTable) (tv : list Z -> bool)
    (t : Tag) (c : Z) (rest : list Z) :
  tags_wf T = true -> In t [BOOL_TRUE_TYPE; BOOL_FALSE_TYPE] ->
  exists v buf',
    deserialize T tv (mkBuffer c (T t :: encodeSize 0 ++ rest)) = Ok (v, buf') /\
    remaining buf' = rest /\
    serialize T v = Err (TypeError_UnknownObjectType "bool").
Proof.
  intros HT Hin.
  unfold deserialize. rewrite deserialize_fuel_S. cbv zeta.
  rewrite (parseHeaders_sized (T t) c 0 rest) by
    (unfold ULLONG_MAX; pose proof (len_nonneg rest); lia).
  cbn [bind].
  destruct Hin as [<-|[<-|[]]];
    rewrite switch_label_code by (auto; in_labels); unfold deserializeBool.
  - rewrite Z.eqb_refl. now eexists _, _.
  - rewrite (neq_tag T HT) by (try in_labels; discriminate). now eexists _, _.
Qed.

Lemma decoded_boolean_not_serializable_witness :
  tags_wf kimchi_tags = true /\ In BOOL_TRUE_TYPE [BOOL_TRUE_TYPE; BOOL_FALSE_TYPE] /\
  exists v buf',
    deserialize kimchi_tags any_text
      (mkBuffer 0 (kimchi_tags BOOL_TRUE_TYPE :: encodeSize 0 ++ [])) = Ok (v, buf') /\
    remaining buf' = [] /\
    serialize kimchi_tags v = Err (TypeError_UnknownObjectType "bool").
Proof.
  assert (tags_wf kimchi_tags = true) as H1 by reflexivity.
  assert (In BOOL_TRUE_TYPE [BOOL_TRUE_TYPE; BOOL_FALSE_TYPE]) as H2
    by (left; reflexivity).
  split; [exact H1|]. split; [exact H2|].
  exact (decoded_boolean_not_serializable kimchi_tags any_text BOOL_TRUE_TYPE 0 [] H1 H2).
Defined.

(** X9. The size field of a list envelope is not compared with what the
    elements take: [deserializeList] is given the buffer only.  With any
    other size in the header (one the bytes left can cover), the elements of
    a serialized list decode as before and the cursor ends behind the last
    element, not behind the declared size. *)
Theorem list_size_field_unchecked (T : TagTable) (tv : list Z -> bool)
    (xs : list PyObject) :
  tags_wf T = true -> supported (PyList Exact xs) = true ->
  well_formed tv (PyList Exact xs) = true -> fits T (PyList Exact xs) = true ->
  exists body,
    serialize T (PyList Exact xs) = Ok (T LIST_TYPE :: encodeSize (len body) ++ body) /\
    forall s c rest,
      0 <= s <= ULLONG_MAX -> s <= len body + len rest ->
      deserialize T tv (mkBuffer c (T LIST_TYPE :: encodeSize s ++ body ++ rest))
      = Ok (PyList Exact (map norm xs),
            mkBuffer (c + 1 + len (encodeSize s) + len body) rest).
Proof.
  intros HT Hs Hwf Hfit.
  destruct (supported_serialize T _ HT Hs) as [bs E].
  pose proof (fits_bound T _ bs Hfit E) as Hmax.
  destruct (serialize_label T HT (PyList Exact xs) LIST_TYPE bs ltac:(in_labels) eq_refl E)
    as (body & -> & Hbody).
  exists body. split; [exact E|].
  cbn [serializeList] in Hbody.
  destruct (serializeItems (serialize T) xs) as [more|] eqn:Em;
    cbn [bind] in Hbody; [|discriminate].
  inversion Hbody; subst body; clear Hbody.
  rewrite envelope_len, len_app in Hmax.
  pose proof (serializeItems_length T xs more Em).
  pose proof (len_nonneg xs). pose proof (encodeSize_length (len xs)).
  pose proof (encodeSize_length (len (encodeSize (len xs)) + len more)).
  pose proof (len_nonneg more).
  intros s c rest Hsz Hcover. pose proof (len_nonneg rest).
  pose proof (encodeSize_length s).
  unfold deserialize. cbn [remaining].
  set (f := List.length _).
  assert (Z.of_nat f
          = len (T LIST_TYPE :: encodeSize s ++ (encodeSize (len xs) ++ more) ++ rest))
    as Hf by reflexivity.
  rewrite len_cons, !len_app in Hf.
  rewrite deserialize_fuel_S. cbv zeta.
  rewrite parseHeaders_sized by (first [exact Hsz | rewrite len_app; exact Hcover]).
  cbn [bind].
  rewrite switch_label_code by (auto; in_labels).
  unfold deserializeList. rewrite <- app_assoc.
  rewrite decodeSize_encodeSize by lia. cbn [bind].
  cbn [well_formed] in Hwf.
  assert (Forall (decodes_back T tv) xs) as Hall
    by (apply Forall_forall; intros x _; apply (decodes_back_all T tv HT)).
  rewrite (items_decode_back T tv xs Hall more Hwf Em) by lia.
  cbn [bind]. do 2 f_equal. f_equal. rewrite len_app. lia.
Qed.

Lemma list_size_field_unchecked_witness :
  tags_wf kimchi_tags = true /\ supported readme_list = true /\
  well_formed any_text readme_list = true /\ fits kimchi_tags readme_list = true /\
  exists body,
    serialize kimchi_tags readme_list
    = Ok (kimchi_tags LIST_TYPE :: encodeSize (len body) ++ body) /\
    forall s c rest,
      0 <= s <= ULLONG_MAX -> s <= len body + len rest ->
      deserialize kimchi_tags any_text
        (mkBuffer c (kimchi_tags LIST_TYPE :: encodeSize s ++ body ++ rest))
      = Ok (PyList Exact
              (map norm
                 [PyInt Exact 1; PyInt Exact 2; PyInt Exact 3;
                  PyTuple Exact
                    [PyString Exact [52]; PyString Exact [53]; PyString Exact [54]]]),
            mkBuffer (c + 1 + len (encodeSize s) + len body) rest).
Proof.
  assert (tags_wf kimchi_tags = true) as H1 by reflexivity.
  assert (supported readme_list = true) as H2 by reflexivity.
  assert (well_formed any_text readme_list = true) as H3 by reflexivity.
  assert (fits kimchi_tags readme_list = true) as H4 by reflexivity.
  split; [exact H1|]. split; [exact H2|]. split; [exact H3|]. split; [exact H4|].
  exact (list_size_field_unchecked kimchi_tags any_text _ H1 H2 H3 H4).
Defined.

(** X10. The tag byte alone fixes the kind of what [deserialize] returns:
    the object has the layout of the case label of its tag, and its type is
    the built-in type itself, [bool] for the two boolean labels; no instance
    of any other class is ever built. *)
Theorem deserialize_kind (T : TagTable) (tv : list Z -> bool)
    (buf buf' : UserBuffer) (v : PyObject) :
  tags_wf T = true -> deserialize T tv buf = Ok (v, buf') ->
  exists type t,
    hd_error (remaining buf) = Some type /\ switch_label T type = Some t /\
    layout v = tag_layout t /\
    class_of v = match t with
                 | BOOL_TRUE_TYPE | BOOL_FALSE_TYPE => Subclass "bool"
                 | _ => Exact
                 end.
Proof.
  intro HT. unfold deserialize. rewrite deserialize_fuel_S. cbv zeta.
  destruct (parseHeaders buf) as [[[type size] b1]|e] eqn:E; cbn [bind];
    [|discriminate].
  pose proof (parseHeaders_tag buf b1 type size E) as Hhd.
  intro H. exists type.
  destruct (switch_label T type) as [t|] eqn:Et; [exists t|discriminate].
  split; [exact Hhd|]. split; [reflexivity|].
  apply find_some in Et as [_ Et]. apply Z.eqb_eq in Et. subst type.
  destruct t;
    try discriminate;
    unfold deserializeInt, deserializeLong, deserializeFloat, deserializeUnicode,
      deserializeBytes, deserializeList, deserializeTuple, deserializeDict,
      deserializeSet, deserializeBool, deserializeNone in H;
    rewrite ?Z.eqb_refl, ?(neq_tag T HT SET_TYPE FROZEN_SET_TYPE) in H
      by (try in_labels; discriminate);
    repeat match type of H with
      | bind ?r _ = _ => destruct r as [[? ?]|?]; cbn [bind] in H; [|discriminate]
      | (if ?c then _ else _) = _ => destruct c
      | Ok (if ?c then _ else _, _) = _ => destruct c
      end;
    try discriminate; inversion H; subst; split; reflexivity.
Qed.

Lemma deserialize_kind_witness :
  tags_wf kimchi_tags = true /\
  deserialize kimchi_tags any_text (newBuffer [9; 129; 128])
  = Ok (PyTuple Exact [], mkBuffer 3 []) /\
  exists type t,
    hd_error (remaining (newBuffer [9; 129; 128])) = Some type /\
    switch_label kimchi_tags type = Some t /\
    layout (PyTuple Exact []) = tag_layout t /\
    class_of (PyTuple Exact []) = match t with
                                  | BOOL_TRUE_TYPE | BOOL_FALSE_TYPE => Subclass "bool"
                                  | _ => Exact
                                  end.
Proof.
  assert (tags_wf kimchi_tags = true) as H0 by reflexivity.
  assert (deserialize kimchi_tags any_text (newBuffer [9; 129; 128])
          = Ok (PyTuple Exact [], mkBuffer 3 [])) as H1 by reflexivity.
  split; [exact H0|]. split; [exact H1|].
  exact (deserialize_kind kimchi_tags any_text _ _ _ H0 H1).
Defined.

(** X12. A successful [deserialize] has moved the cursor forward: fewer
    bytes are ahead of it than before, so decoding a buffer envelope after
    envelope comes to an end. *)
Theorem deserialize_progress (T : TagTable) (tv : list Z -> bool)
    (buf buf' : UserBuffer) (v : PyObject) :
  deserialize T tv buf = Ok (v, buf') ->
  (List.length (remaining buf') < List.length (remaining buf))%nat.
Proof.
  intro H. pose proof (deserialize_total T tv buf) as Ht.
  rewrite H in Ht. cbn [advances] in Ht. lia.
Qed.

Lemma deserialize_progress_witness :
  deserialize kimchi_tags any_text (newBuffer [15; 128; 15; 128])
  = Ok (Py_None, mkBuffer 2 [15; 128]) /\
  Nat.lt (List.length (remaining (mkBuffer 2 [15; 128])))
         (List.length (remaining (newBuffer [15; 128; 15; 128]))).
Proof.
  assert (deserialize kimchi_tags any_text (newBuffer [15; 128; 15; 128])
          = Ok (Py_None, mkBuffer 2 [15; 128])) as H1 by reflexivity.
  split; [exact H1|].
  exact (deserialize_progress kimchi_tags any_text _ _ _ H1).
Defined.

(** ** Round trips of the recognised values *)

(** X13. Round trip of the values [getType] recognises: for a supported,
    well-formed value (so one without booleans) whose envelope fits
    the C size type, [serialize] succeeds and [deserialize] of the bytes it
    produced returns, having consumed them all, a value equal to the
    original under the codec's equality. *)
Theorem serialize_deserialize_roundtrip (T : TagTable) (tv : list Z -> bool)
    (v : PyObject) :
  tags_wf T = true -> supported v = true -> well_formed tv v = true ->
  fits T v = true ->
  exists bs v',
    serialize T v = Ok bs /\
    deserialize T tv (newBuffer bs) = Ok (v', mkBuffer (len bs) []) /\
    codec_eq v v'.
Proof.
  intros HT Hs Hwf Hfit.
  destruct (supported_serialize T v HT Hs) as [bs Hser].
  exists bs, (norm v). split; [exact Hser|]. split; [|apply codec_eq_norm].
  pose proof (decode_back_at T tv v bs [] 0 HT Hwf Hser (fits_bound T v bs Hfit Hser))
    as H.
  rewrite app_nil_r in H. exact H.
Qed.

Lemma serialize_deserialize_roundtrip_witness :
  tags_wf kimchi_tags = true /\ supported sample_value = true /\
  well_formed any_text sample_value = true /\ fits kimchi_tags sample_value = true /\
  exists bs v',
    serialize kimchi_tags sample_value = Ok bs /\
    deserialize kimchi_tags any_text (newBuffer bs) = Ok (v', mkBuffer (len bs) []) /\
    codec_eq sample_value v'.
Proof.
  assert (tags_wf kimchi_tags = true) as H1 by reflexivity.
  assert (supported sample_value = true) as H2 by reflexivity.
  assert (well_formed any_text sample_value = true) as H3 by reflexivity.
  assert (fits kimchi_tags sample_value = true) as H4 by reflexivity.
  repeat split; try assumption.
  exact (serialize_deserialize_roundtrip kimchi_tags any_text sample_value H1 H2 H3 H4).
Defined.

(** X14. Concatenated envelopes of values [getType] recognises: for
    supported values [a] and [b] (so without booleans),
    [deserialize] applied twice to the buffer holding the envelope of [a]
    followed by the envelope of [b] yields [a] then [b], the first call
    leaving the cursor at the start of the second envelope and the second at
    the end of the buffer. *)
Theorem concatenated_envelopes (T : TagTable) (tv : list Z -> bool)
    (a b : PyObject) :
  tags_wf T = true ->
  supported a = true -> well_formed tv a = true -> fits T a = true ->
  supported b = true -> well_formed tv b = true -> fits T b = true ->
  exists sa sb a' b',
    serialize T a = Ok sa /\ serialize T b = Ok sb /\
    deserialize T tv (newBuffer (sa ++ sb)) = Ok (a', mkBuffer (len sa) sb) /\
    deserialize T tv (mkBuffer (len sa) sb) = Ok (b', mkBuffer (len sa + len sb) []) /\
    codec_eq a a' /\ codec_eq b b'.
Proof.
  intros HT Hsa Hwa Hfa Hsb Hwb Hfb.
  destruct (supported_serialize T a HT Hsa) as [sa Ea].
  destruct (supported_serialize T b HT Hsb) as [sb Eb].
  exists sa, sb, (norm a), (norm b).
  repeat split; try assumption; try apply codec_eq_norm.
  - apply (decode_back_at T tv a sa sb 0 HT Hwa Ea (fits_bound T a sa Hfa Ea)).
  - pose proof (decode_back_at T tv b sb [] (len sa) HT Hwb Eb
                  (fits_bound T b sb Hfb Eb)) as H.
    rewrite app_nil_r in H. exact H.
Qed.

Lemma concatenated_envelopes_witness :
  tags_wf kimchi_tags = true /\
  supported readme_list = true /\ well_formed any_text readme_list = true /\
  fits kimchi_tags readme_list = true /\
  supported sample_value = true /\ well_formed any_text sample_value = true /\
  fits kimchi_tags sample_value = true /\
  exists sa sb a' b',
    serialize kimchi_tags readme_list = Ok sa /\
    serialize kimchi_tags sample_value = Ok sb /\
    deserialize kimchi_tags any_text (newBuffer (sa ++ sb))
    = Ok (a', mkBuffer (len sa) sb) /\
    deserialize kimchi_tags any_text (mkBuffer (len sa) sb)
    = Ok (b', mkBuffer (len sa + len sb) []) /\
    codec_eq readme_list a' /\ codec_eq sample_value b'.
Proof.
  assert (tags_wf kimchi_tags = true) as H1 by reflexivity.
  assert (supported readme_list = true) as H2 by reflexivity.
  assert (well_formed any_text readme_list = true) as H3 by reflexivity.
  assert (fits kimchi_tags readme_list = true) as H4 by reflexivity.
  assert (supported sample_value = true) as H5 by reflexivity.
  assert (well_formed any_text sample_value = true) as H6 by reflexivity.
  assert (fits kimchi_tags sample_value = true) as H7 by reflexivity.
  repeat split; try assumption.
  exact (concatenated_envelopes kimchi_tags any_text readme_list sample_value
           H1 H2 H3 H4 H5 H6 H7).
Defined.

